(** * Verification of the mk48 server bot controller ([src/server/src/bot.rs])

    A shallow embedding of [Bot::update]: the per-tick decision function of an
    AI-controlled vessel.  [f32] quantities are modelled as real numbers,
    [Angle] as a wrapping 16-bit integer, [Ticks] as [N], armament and turret
    indices as [nat].  Randomness ([thread_rng]) is an explicit record of
    draws.  Library functions of the [common] crate that are pure geometry
    (trigonometry, transform composition, turret arcs) and the static entity
    table are section variables, so the theorems hold for every table and
    every geometry. *)

From Stdlib Require Import Bool List ZArith NArith Reals Lra Lia Psatz.
Import ListNotations.

(** ** Enumerations of the [common::entity] module *)

Inductive EntityKind : Set :=
  | Aircraft | Boat | Collectible | Decoy | Obstacle | Turret | Weapon.

Scheme Equality for EntityKind.

Inductive EntitySubKind : Set :=
  | Battleship | Carrier | Corvette | Cruiser | Destroyer | Dredger | Hovercraft
  | Icebreaker | Lcs | Minelayer | Mtb | Pirate | Ram | Submarine | Tanker
  | Barrel | Coin | Crate | Score | Scrap
  | DepthCharge | Heli | Mine | Missile | Plane | Rocket | Sam | Shell | Torpedo
  | Sonar | Structure | Tree.

Scheme Equality for EntitySubKind.

(** ** [glam::Vec2] over the reals *)

Open Scope R_scope.

Record Vec2 : Type := mkVec2 { vx : R; vy : R }.

Definition Vec2_ZERO : Vec2 := mkVec2 0 0.
Definition vadd (a b : Vec2) : Vec2 := mkVec2 (vx a + vx b) (vy a + vy b).
Definition vsub (a b : Vec2) : Vec2 := mkVec2 (vx a - vx b) (vy a - vy b).
Definition vneg (a : Vec2) : Vec2 := mkVec2 (- vx a) (- vy a).
Definition vscale (a : Vec2) (s : R) : Vec2 := mkVec2 (vx a * s) (vy a * s).
Definition vdivs (a : Vec2) (s : R) : Vec2 := mkVec2 (vx a / s) (vy a / s).
Definition length_squared (a : Vec2) : R := vx a * vx a + vy a * vy a.
Definition vlength (a : Vec2) : R := sqrt (length_squared a).

(** ** [Angle], [Altitude], [Ticks] *)

(** Modelled from the spec: [common::angle::Angle] is not under src/.  An
    angle is a 16-bit signed integer ([i16::MAX] is pi); subtraction wraps
    and the absolute value saturates at [Angle::MAX]. *)
Definition Angle := Z.

Definition wrap_i16 (z : Z) : Z := ((z + 32768) mod 65536 - 32768)%Z.
Definition Angle_ZERO : Angle := 0%Z.
Definition Angle_MAX : Angle := 32767%Z.
Definition angle_sub (a b : Angle) : Angle := wrap_i16 (a - b).
Definition angle_abs (a : Angle) : Angle :=
  if Z.eqb a (-32768) then Angle_MAX else Z.abs a.
(** [Angle::from_degrees(60.0)]: [pi/3 * (i16::MAX / pi)] truncated. *)
Definition angle_60_degrees : Angle := 10922%Z.

(** Modelled from the spec: [common::altitude::Altitude] is an [i8];
    below zero is submerged, above zero airborne. *)
Definition Altitude := Z.
Definition Altitude_ZERO : Altitude := 0%Z.
Definition Altitude_MIN : Altitude := (-128)%Z.
Definition is_airborne (a : Altitude) : bool := Z.ltb 0 a.
Definition is_submerged (a : Altitude) : bool := Z.ltb a 0.

(** [Ticks] is an unsigned 16-bit count. *)
Definition Ticks := N.

(** [i as u8]. *)
Definition u8_of_nat (i : nat) : Z := (Z.of_nat i mod 256)%Z.

Record Transform : Type := mkTransform { position : Vec2; direction : Angle }.

(** ** The steering closures of [Bot::update] (lines 75-87) *)

Definition attract (weighted_sum target_delta : Vec2) (distance_squared : R) : Vec2 :=
  vadd weighted_sum (vdivs target_delta (1 + distance_squared)).

Definition repel (weighted_sum target_delta : Vec2) (distance_squared : R) : Vec2 :=
  attract weighted_sum (vneg target_delta) distance_squared.

(** [spring] overwrites the weighted sum. *)
Definition spring (weighted_sum target_delta : Vec2) (desired_distance : R) : Vec2 :=
  let distance := vlength target_delta in
  let displacement := distance - desired_distance in
  vdivs (vscale target_delta displacement) (displacement ^ 2 + 1).

(** [IteratorRandom::choose]: [None] on an empty iterator, otherwise one of
    its elements, picked by the draw [k]. *)
Definition choose {A : Type} (k : nat) (l : list A) : option A :=
  match l with
  | [] => None
  | _ => nth_error l (k mod List.length l)
  end.

Definition opt_nat_eqb (a b : option nat) : bool :=
  match a, b with
  | Some x, Some y => Nat.eqb x y
  | None, None => true
  | _, _ => false
  end.

Notation "'let*' x ':=' e1 'in' e2" :=
  (match e1 with Some x => e2 | None => None end)
  (at level 200, x name, e1 at level 100, e2 at level 200).

(** The entity-type universe of [common::entity]: [EntityType] and the
    turret description of a vessel's data. *)
Class EntityTypes : Type := {
  EntityType : Type;
  TurretData : Type
}.

Section Data.
Context `{ET : EntityTypes}.

Record Armament : Type := mkArmament {
  arm_entity_type : EntityType;
  arm_turret : option nat;
  arm_vertical : bool
}.

Record EntityData : Type := mkEntityData {
  kind : EntityKind;
  sub_kind : EntitySubKind;
  level : nat;
  entity_length : R;
  radius : R;
  speed : R;
  max_health_secs : R;
  armaments : list Armament;
  turrets : list TurretData
}.

(** A sensor contact ([ContactTrait]). *)
Record Contact : Type := mkContact {
  c_id : nat;
  c_player_id : option nat;
  c_entity_type : option EntityType;
  c_transform : Transform;
  c_altitude : Altitude;
  c_damage_secs : R;
  c_reloads : list Ticks;
  c_turrets : list Angle
}.

(** The complete update ([CompleteTrait]). *)
Record Complete : Type := mkComplete {
  player_id : nat;
  contacts : list Contact;
  terrain_sample : Vec2 -> option Altitude;
  world_radius : R;
  score : nat
}.

Record Bot : Type := mkBot {
  aggression : R;
  aim_bias : Vec2;
  level_ambition : nat;
  spawned_at_least_once : bool
}.

(** The outcomes of the random draws of one call. *)
Record Draws : Type := mkDraws {
  aggression_roll : bool;  (** [rng.gen_bool(self.aggression)] *)
  quit_roll : bool;        (** [rng.gen_bool(1.0 / 3.0)] *)
  upgrade_pick : nat;      (** [.choose(&mut rng)] on upgrade options *)
  spawn_pick : nat         (** [.choose(&mut rng)] on spawn options *)
}.

Record Guidance : Type := mkGuidance {
  direction_target : Angle;
  velocity_target : R
}.

Record ControlData : Type := mkControl {
  guidance : option Guidance;
  angular_velocity_target : option Angle;
  altitude_target : option Altitude;
  aim_target : option Vec2;
  active : bool
}.

Inductive Command : Type :=
  | Control (c : ControlData)
  | Fire (index : Z) (position_target : Vec2)
  | Spawn (entity_type : EntityType)
  | Upgrade (entity_type : EntityType).

Record FiringSolution : Type := mkFiringSolution {
  fs_index : Z;
  fs_position : Vec2;
  fs_diff : Angle
}.

End Data.

(** What [Bot::update] reads from the [common] crate: the static entity table,
    the turret arcs, the upgrade and spawn tables and the geometry. *)
Class Common `{ET : EntityTypes} : Type := {
  data : EntityType -> EntityData;
  (** [Turret::within_azimuth(current_angle)] *)
  within_azimuth : TurretData -> Angle -> bool;
  (** [EntityType::upgrade_options(score, bots)] *)
  upgrade_options : EntityType -> nat -> bool -> list EntityType;
  (** [EntityType::spawn_options(bots)] *)
  spawn_options : bool -> list EntityType;
  (** [Angle::from_radians], [Angle::to_vec], [Angle::from(Vec2)] *)
  angle_from_radians : R -> Angle;
  angle_to_vec : Angle -> Vec2;
  angle_from_vec : Vec2 -> Angle;
  (** [transform + data.armament_transform(turrets, i)] *)
  armament_world : Transform -> EntityData -> list Angle -> nat -> Transform;
  (** [terrain::SAND_LEVEL] *)
  SAND_LEVEL : Altitude
}.

Section BotUpdate.
Context `{CM : Common}.

(** [ContactTrait::is_boat]. *)
Definition is_boat (c : Contact) : bool :=
  match c_entity_type c with
  | Some t => EntityKind_beq (kind (data t)) Boat
  | None => false
  end.

(** The filter of line 64. *)
Definition is_own_boat (pid : nat) (c : Contact) : bool :=
  is_boat c && opt_nat_eqb (c_player_id c) (Some pid).


Definition is_weapon_or_aircraft (k : EntityKind) : bool :=
  match k with
  | Weapon | Aircraft => true
  | _ => false
  end.

(** [Bot::is_land_or_border] (lines 294-300). *)
Definition is_land_or_border (pos : Vec2) (terrain : Vec2 -> option Altitude) (radius_ : R) : bool :=
  if Rlt_dec (radius_ ^ 2) (length_squared pos) then true
  else Z.geb (match terrain pos with Some a => a | None => Altitude_MIN end) SAND_LEVEL.

Definition SAMPLES : nat := 10.

(** The terrain loop (lines 90-102), starting from [movement = Vec2::ZERO]. *)
Definition terrain_pass (u : Complete) (boat : Contact) (d : EntityData) : Vec2 :=
  fold_left
    (fun movement i =>
       let angle := angle_from_radians (INR i * (2 * PI / INR SAMPLES)) in
       let delta_position := vscale (angle_to_vec angle) (entity_length d) in
       if is_land_or_border (vadd (position (c_transform boat)) delta_position)
            (terrain_sample u) (world_radius u)
       then repel movement delta_position (entity_length d ^ 2)
       else movement)
    (seq 0 SAMPLES) Vec2_ZERO.

(** One iteration of the sensor-contact scan (lines 107-157): the movement
    vector and [closest_enemy] before and after [contact]. *)
Definition contact_step (pid : nat) (boat : Contact) (d : EntityData)
    (acc : Vec2 * option (Contact * R)) (contact : Contact) : Vec2 * option (Contact * R) :=
  let '(movement, closest_enemy) := acc in
  if Nat.eqb (c_id contact) (c_id boat) then acc else
  match c_entity_type contact with
  | None => acc
  | Some ct =>
    let contact_data := data ct in
    let delta_position := vsub (position (c_transform contact)) (position (c_transform boat)) in
    let distance_squared := length_squared delta_position in
    let friendly := opt_nat_eqb (c_player_id contact) (Some pid) in
    let movement1 :=
      if EntityKind_beq (kind contact_data) Collectible then
        attract movement delta_position distance_squared
      else if (negb friendly || EntityKind_beq (kind contact_data) Boat)
              && negb (negb friendly && EntityKind_beq (kind contact_data) Boat
                       && EntitySubKind_beq (sub_kind d) Ram) then
        repel movement delta_position distance_squared
      else movement in
    if friendly then
      (if EntityKind_beq (kind contact_data) Boat
       then spring movement1 delta_position (radius d + radius contact_data)
       else movement1, closest_enemy)
    else
      let '(movement2, hostile) :=
        match kind contact_data with
        | Boat | Aircraft => (movement1, true)
        | Weapon => (movement1, EntitySubKind_beq (sub_kind contact_data) Missile)
        | Obstacle => (repel movement1 delta_position distance_squared, false)
        | _ => (movement1, false)
        end in
      if hostile then
        (movement2,
         match closest_enemy with
         | Some (_, existing) =>
             if Rlt_dec distance_squared existing
             then Some (contact, distance_squared) else closest_enemy
         | None => Some (contact, distance_squared)
         end)
      else (movement2, closest_enemy)
  end.

Definition scan_contacts (pid : nat) (boat : Contact) (d : EntityData)
    (rest : list Contact) (acc : Vec2 * option (Contact * R)) : Vec2 * option (Contact * R) :=
  fold_left (contact_step pid boat d) rest acc.

(** The relevance matrix (lines 176-207). *)
Definition relevant (enemy_kind : EntityKind) (enemy_altitude : Altitude)
    (armament_sub_kind : EntitySubKind) : bool :=
  match enemy_kind with
  | Aircraft | Weapon =>
      if is_airborne enemy_altitude then
        match armament_sub_kind with Sam => true | _ => false end
      else false
  | Boat =>
      if is_submerged enemy_altitude then
        match armament_sub_kind with
        | Torpedo | Plane | Heli | DepthCharge => true
        | _ => false
        end
      else
        match armament_sub_kind with
        | Torpedo | Plane | Heli | DepthCharge | Rocket | Missile | Shell => true
        | _ => false
        end
  | _ => false
  end.

(** The turret gate (lines 213-219): [None] when an index panics. *)
Definition turret_ok (boat : Contact) (d : EntityData) (a : Armament) : option bool :=
  match arm_turret a with
  | None => Some true
  | Some turret_index =>
      let* t := nth_error (turrets d) turret_index in
      let* o := nth_error (c_turrets boat) turret_index in
      Some (within_azimuth t o)
  end.

(** The filters of one iteration of the targeting loop (lines 165-227):
    [None] when an index panics, [Some None] on [continue], and
    [Some (Some angle_diff)] for a candidate. *)
Definition candidate (boat : Contact) (d : EntityData) (enemy : Contact)
    (enemy_data : EntityData) (i : nat) (armament : Armament) : option (option Angle) :=
  let* reload := nth_error (c_reloads boat) i in
  if (0 <? reload)%N then Some None else
  let armament_entity_data := data (arm_entity_type armament) in
  if negb (is_weapon_or_aircraft (kind armament_entity_data)) then Some None else
  if negb (relevant (kind enemy_data) (c_altitude enemy) (sub_kind armament_entity_data))
  then Some None else
  let* in_azimuth := turret_ok boat d armament in
  if negb in_azimuth then Some None else
  let transform := armament_world (c_transform boat) d (c_turrets boat) i in
  let angle := angle_from_vec (vsub (position (c_transform enemy)) (position transform)) in
  let angle_diff := angle_abs (angle_sub angle (direction transform)) in
  if arm_vertical armament || EntityKind_beq (kind armament_entity_data) Aircraft
  then Some (Some Angle_ZERO)
  else Some (Some angle_diff).

Definition best_diff (best : option FiringSolution) : Angle :=
  match best with
  | Some s => fs_diff s
  | None => Angle_MAX
  end.

(** The targeting loop (lines 164-238) from armament index [i]. *)
Fixpoint targeting_loop (boat : Contact) (d : EntityData) (enemy : Contact)
    (enemy_data : EntityData) (i : nat) (arms : list Armament)
    (best : option FiringSolution) : option (option FiringSolution) :=
  match arms with
  | [] => Some best
  | armament :: arms' =>
      match candidate boat d enemy enemy_data i armament with
      | None => None
      | Some None => targeting_loop boat d enemy enemy_data (S i) arms' best
      | Some (Some angle_diff) =>
          let firing_solution :=
            mkFiringSolution (u8_of_nat i) (position (c_transform enemy)) angle_diff in
          if Z.ltb angle_diff (best_diff best)
          then targeting_loop boat d enemy enemy_data (S i) arms' (Some firing_solution)
          else targeting_loop boat d enemy enemy_data (S i) arms' best
      end
  end.

(** [best_firing_solution] for the closest enemy ([enemy.data()] unwraps). *)
Definition targeting (boat : Contact) (d : EntityData) (enemy : Contact)
    : option (option FiringSolution) :=
  let* et := c_entity_type enemy in
  targeting_loop boat d enemy (data et) 0 (armaments d) None.

(** The [Control] command (lines 241-258). *)
Definition control_command (b : Bot) (d : EntityData) (health_percent : R)
    (movement : Vec2) (best : option FiringSolution) : Command :=
  Control (mkControl
    (Some (mkGuidance (angle_from_vec movement) (speed d * 0.8)))
    None
    (if EntitySubKind_beq (sub_kind d) Submarine then
       Some (if Rlt_dec (aggression b) health_percent then Altitude_ZERO else Altitude_MIN)
     else None)
    (option_map (fun solution => vadd (fs_position solution) (aim_bias b)) best)
    (if Rle_dec 0.5 health_percent then true else false)).

(** The optional second command (lines 260-278). *)
Definition second_commands (b : Bot) (d : EntityData) (boat_type : EntityType)
    (best : option FiringSolution) (sc : nat) (r : Draws) : list Command :=
  if aggression_roll r then
    match best with
    | Some firing_solution =>
        if Z.ltb (fs_diff firing_solution) angle_60_degrees
        then [Fire (fs_index firing_solution) (fs_position firing_solution)]
        else []
    | None =>
        if Nat.ltb (level d) (level_ambition b) then
          match choose (upgrade_pick r) (upgrade_options boat_type sc true) with
          | Some entity_type => [Upgrade entity_type]
          | None => []
          end
        else []
    end
  else [].

Definition set_spawned (b : Bot) : Bot :=
  mkBot (aggression b) (aim_bias b) (level_ambition b) true.

(** Branch A: the vessel is alive. *)
Definition alive_update (b : Bot) (u : Complete) (r : Draws) (boat : Contact)
    (rest : list Contact) : option ((list Command * bool) * Bot) :=
  let b' := set_spawned b in
  let* boat_type := c_entity_type boat in
  let d := data boat_type in
  let health_percent := 1 - c_damage_secs boat / max_health_secs d in
  let '(movement, closest_enemy) :=
    scan_contacts (player_id u) boat d rest (terrain_pass u boat d, None) in
  let* best :=
    match closest_enemy with
    | Some (enemy, _) => targeting boat d enemy
    | None => Some None
    end in
  Some ((control_command b d health_percent movement best
         :: second_commands b d boat_type best (score u) r, false), b').

(** Branches B and C: rage-quit or spawn ([expect] panics on no option). *)
Definition dead_update (b : Bot) (r : Draws) : option ((list Command * bool) * Bot) :=
  if spawned_at_least_once b && quit_roll r then Some (([], true), b)
  else
    let* entity_type := choose (spawn_pick r) (spawn_options true) in
    Some (([Spawn entity_type], false), b).

(** [Bot::update]: the commands, the quit flag and the new bot state;
    [None] when the code panics. *)
Definition update (b : Bot) (u : Complete) (r : Draws) : option ((list Command * bool) * Bot) :=
  match contacts u with
  | boat :: rest =>
      if is_own_boat (player_id u) boat then alive_update b u r boat rest
      else dead_update b r
  | [] => dead_update b r
  end.

(** [Bot::MAX_AGGRESSION]. *)
Definition MAX_AGGRESSION : R := 0.1.

(** [Bot::new] (lines 37-46), given its three draws: [rng.gen::<f32>()],
    [gen_radius(&mut rng, 10.0)] and
    [rng.gen_range(1..EntityData::MAX_BOAT_LEVEL)]. *)
Definition new (x : R) (bias : Vec2) (ambition : nat) : Bot :=
  mkBot (x ^ 2 * MAX_AGGRESSION) bias ambition false.

(** The kinds a non-friendly contact is an enemy of (lines 138-146). *)
Definition is_enemy_kind (cd : EntityData) : bool :=
  match kind cd with
  | Boat | Aircraft => true
  | Weapon => EntitySubKind_beq (sub_kind cd) Missile
  | _ => false
  end.

(** A contact that the scan of lines 107-157 considers for [closest_enemy]:
    not the vessel itself, of known type, not friendly, of an enemy kind. *)
Definition is_enemy (pid : nat) (boat c : Contact) : bool :=
  negb (Nat.eqb (c_id c) (c_id boat)) &&
  match c_entity_type c with
  | Some ct => negb (opt_nat_eqb (c_player_id c) (Some pid)) && is_enemy_kind (data ct)
  | None => false
  end.

(** [delta_position.length_squared()] of line 115. *)
Definition distance_squared_to (boat c : Contact) : R :=
  length_squared (vsub (position (c_transform c)) (position (c_transform boat))).

End BotUpdate.

(** Whether the first contact passes the filter of line 64. *)
Definition first_contact_is_own_boat `{CM : Common} (u : Complete) : bool :=
  match contacts u with
  | boat :: _ => is_own_boat (player_id u) boat
  | [] => false
  end.

(** ** A concrete instance of the [common] crate

    A small entity table, turret arcs and real-number geometry, used to run
    [update] on concrete snapshots. *)

Module Scenario.

Inductive ScnType : Type :=
  | TDestroyer | TGunboat | TRamBoat | TCruiser | TTorpedo | TShell.

(** Modelled from the spec: a turret's allowed azimuth arc, relative to the
    vessel's heading ([Turret::within_azimuth] is not under src/). *)
Record Arc : Type := mkArc { arc_min : Angle; arc_max : Angle }.

Definition arc_within (t : Arc) (a : Angle) : bool :=
  Z.leb (arc_min t) a && Z.leb a (arc_max t).

#[local] Instance scn_types : EntityTypes := {| EntityType := ScnType; TurretData := Arc |}.

Definition torpedo_tube : Armament := mkArmament TTorpedo None false.
Definition deck_gun : Armament := mkArmament TShell (Some 0%nat) false.

Definition scn_data (t : ScnType) : EntityData :=
  match t with
  | TDestroyer => mkEntityData Boat Destroyer 1 60 6 10 2 [torpedo_tube] []
  | TGunboat => mkEntityData Boat Mtb 1 30 4 12 1 [deck_gun] [mkArc (-4000)%Z 4000%Z]
  | TRamBoat => mkEntityData Boat Ram 1 40 5 12 2 [] []
  | TCruiser => mkEntityData Boat Cruiser 2 120 12 9 4 [torpedo_tube] []
  | TTorpedo => mkEntityData Weapon Torpedo 1 5 1 20 1 [] []
  | TShell => mkEntityData Weapon Shell 1 1 1 50 1 [] []
  end.

Definition scn_upgrade_options (t : ScnType) (_ : nat) (_ : bool) : list ScnType :=
  match t with
  | TDestroyer => [TCruiser]
  | _ => []
  end.

Definition scn_spawn_options (_ : bool) : list ScnType := [TDestroyer].

(** [atan2] on the reals. *)
Definition atan2 (y x : R) : R :=
  if Rlt_dec 0 x then atan (y / x)
  else if Rlt_dec x 0 then
    (if Rle_dec 0 y then atan (y / x) + PI else atan (y / x) - PI)
  else if Rlt_dec 0 y then PI / 2
  else if Rlt_dec y 0 then - (PI / 2)
  else 0.

(** [f32 as i32]: truncation toward zero. *)
Definition trunc_R (r : R) : Z :=
  if Rle_dec 0 r then Int_part r else (- Int_part (- r))%Z.

(** [Angle::from_radians]: [(radians * (i16::MAX / PI)) as i32 as i16]. *)
Definition scn_angle_from_radians (radians : R) : Angle :=
  wrap_i16 (trunc_R (radians * (32767 / PI))).

Definition scn_angle_to_vec (a : Angle) : Vec2 :=
  mkVec2 (cos (IZR a * (PI / 32767))) (sin (IZR a * (PI / 32767))).

Definition scn_angle_from_vec (v : Vec2) : Angle :=
  scn_angle_from_radians (atan2 (vy v) (vx v)).

(** Armaments mounted at the vessel's centre, facing along their turret. *)
Definition scn_armament_world (t : Transform) (d : EntityData) (turret_angles : list Angle)
    (i : nat) : Transform :=
  mkTransform (position t)
    (match nth_error (armaments d) i with
     | Some a =>
         match arm_turret a with
         | Some ti => wrap_i16 (direction t + nth ti turret_angles 0%Z)
         | None => direction t
         end
     | None => direction t
     end).

#[local] Instance scn_common : Common := {|
  data := scn_data;
  within_azimuth := arc_within;
  upgrade_options := scn_upgrade_options;
  spawn_options := scn_spawn_options;
  angle_from_radians := scn_angle_from_radians;
  angle_to_vec := scn_angle_to_vec;
  angle_from_vec := scn_angle_from_vec;
  armament_world := scn_armament_world;
  SAND_LEVEL := 0%Z
|}.

(** The controller's vessel (player 1, id 0) at the origin, heading [dir],
    all armaments reloaded and turrets at their rest angle. *)
Definition own_boat (t : ScnType) (dir : Angle) : Contact :=
  mkContact 0 (Some 1%nat) (Some t) (mkTransform (mkVec2 0 0) dir) 0%Z 0
    [0%N] [0%Z].

(** A surfaced contact of player 2. *)
Definition hostile (id : nat) (t : ScnType) (pos : Vec2) : Contact :=
  mkContact id (Some 2%nat) (Some t) (mkTransform pos 0%Z) 0%Z 0 [] [].

Definition snapshot (cs : list Contact) : Complete :=
  mkComplete 1 cs (fun _ => None) 10000 0.

Definition bot0 : Bot := mkBot 0.05 (mkVec2 3 4) 3 false.

Definition draws_aggressive : Draws := mkDraws true false 0 0.

(** A hostile destroyer 100 units east of the origin. *)
Definition east_destroyer : Contact := hostile 1 TDestroyer (mkVec2 100 0).

(** A hostile ramming boat 10 units east of the origin. *)
Definition ram_contact : Contact := hostile 1 TRamBoat (mkVec2 10 0).

End Scenario.

(** A second concrete instance: a submarine with a vertical launcher, a
    rock (Obstacle) and a crate (Collectible), for the contact-scan
    properties. *)

Module Harbour.

Inductive HType : Type := HSub | HRock | HCrate | HTorpedo.

#[local] Instance h_types : EntityTypes := {| EntityType := HType; TurretData := unit |}.

Definition vertical_tube : Armament := mkArmament HTorpedo None true.

Definition h_data (t : HType) : EntityData :=
  match t with
  | HSub => mkEntityData Boat Submarine 1 40 5 8 2 [vertical_tube] []
  | HRock => mkEntityData Obstacle Tree 1 10 10 0 1 [] []
  | HCrate => mkEntityData Collectible Crate 1 1 1 0 1 [] []
  | HTorpedo => mkEntityData Weapon Torpedo 1 5 1 20 1 [] []
  end.

#[local] Instance h_common : Common := {|
  data := h_data;
  within_azimuth := fun _ _ => true;
  upgrade_options := fun _ _ _ => [];
  spawn_options := fun _ => [HSub];
  angle_from_radians := Scenario.scn_angle_from_radians;
  angle_to_vec := Scenario.scn_angle_to_vec;
  angle_from_vec := Scenario.scn_angle_from_vec;
  armament_world := fun t _ _ _ => t;
  SAND_LEVEL := 0%Z
|}.

(** The controller's submarine (player 1, id 0) at the origin. *)
Definition own_sub : Contact :=
  mkContact 0 (Some 1%nat) (Some HSub) (mkTransform (mkVec2 0 0) 16383%Z) 0%Z 0 [0%N] [].

(** A hostile submarine (player 2), submerged, 100 units east. *)
Definition enemy_sub : Contact :=
  mkContact 1 (Some 2%nat) (Some HSub) (mkTransform (mkVec2 100 0) 0%Z) (-10)%Z 0 [] [].

Definition rock : Contact :=
  mkContact 2 None (Some HRock) (mkTransform (mkVec2 0 30) 0%Z) 0%Z 0 [] [].

Definition crate : Contact :=
  mkContact 3 None (Some HCrate) (mkTransform (mkVec2 5 5) 0%Z) 0%Z 0 [] [].

End Harbour.

(** A third concrete instance: a frigate carrying one fixed torpedo tube
    followed by two vertical launchers, for the firing-solution search over
    several armaments. *)

Module Fleet.

Inductive FType : Type := FFrigate | FTorpedo.

#[local] Instance f_types : EntityTypes := {| EntityType := FType; TurretData := unit |}.

Definition tube : Armament := mkArmament FTorpedo None false.

Definition vls : Armament := mkArmament FTorpedo None true.

Definition f_data (t : FType) : EntityData :=
  match t with
  | FFrigate => mkEntityData Boat Destroyer 1 60 6 10 2 [tube; vls; vls] []
  | FTorpedo => mkEntityData Weapon Torpedo 1 5 1 20 1 [] []
  end.

#[local] Instance f_common : Common := {|
  data := f_data;
  within_azimuth := fun _ _ => true;
  upgrade_options := fun _ _ _ => [];
  spawn_options := fun _ => [FFrigate];
  angle_from_radians := Scenario.scn_angle_from_radians;
  angle_to_vec := Scenario.scn_angle_to_vec;
  angle_from_vec := Scenario.scn_angle_from_vec;
  armament_world := fun t _ _ _ => t;
  SAND_LEVEL := 0%Z
|}.

(** The controller's frigate (player 1, id 0) at the origin heading north,
    with reload timers [rl]. *)
Definition own_frigate (rl : list Ticks) : Contact :=
  mkContact 0 (Some 1%nat) (Some FFrigate) (mkTransform (mkVec2 0 0) 16383%Z) 0%Z 0 rl [].

(** A hostile frigate (player 2) on the surface, 100 units east. *)
Definition enemy_frigate : Contact :=
  mkContact 1 (Some 2%nat) (Some FFrigate) (mkTransform (mkVec2 100 0) 0%Z) 0%Z 0 [] [].

Definition fleet_snapshot (rl : list Ticks) : Complete :=
  mkComplete 1 [own_frigate rl; enemy_frigate] (fun _ => None) 10000 0.

End Fleet.

(** ** Properties of [Bot::update] *)

Section Properties.
Context `{CM : Common}.

Lemma length_squared_nonneg (v : Vec2) : 0 <= length_squared v.
Proof. unfold length_squared. nra. Qed.

Lemma vlength_vdivs (v : Vec2) (s : R) :
  0 < s -> vlength (vdivs v s) = vlength v / s.
Proof.
  intros Hs. unfold vlength, vdivs, length_squared; simpl.
  assert (E : vx v / s * (vx v / s) + vy v / s * (vy v / s)
              = (vx v * vx v + vy v * vy v) / (s * s)) by (field; lra).
  rewrite E, sqrt_div_alt by nra.
  rewrite sqrt_square by lra. reflexivity.
Qed.

(** C8: [repel(delta, d2)] is [attract(-delta, d2)]: it adds
    [-delta / (1 + d2)]; the magnitude of [attract]'s contribution is
    [|delta| / (1 + d2)] and does not grow with [d2] for a fixed [|delta|]. *)
Theorem repel_attract_contributions (ws delta : Vec2) (d2 : R) :
  repel ws delta d2 = attract ws (vneg delta) d2 /\
  repel ws delta d2 = vadd ws (vneg (vdivs delta (1 + d2))) /\
  (-1 < d2 -> vlength (vdivs delta (1 + d2)) = vlength delta / (1 + d2)) /\
  (forall (delta' : Vec2) (d2' : R), vlength delta' = vlength delta -> -1 < d2 <= d2' ->
     vlength (vdivs delta' (1 + d2')) <= vlength (vdivs delta (1 + d2))).
Proof.
  split; [reflexivity|]. split.
  { unfold repel, attract, vadd, vneg, vdivs; simpl. f_equal; unfold Rdiv; ring. }
  split.
  { intros H. apply vlength_vdivs. lra. }
  intros delta' d2' Hl Hd.
  rewrite !vlength_vdivs by lra. rewrite Hl.
  assert (0 <= vlength delta) by (unfold vlength; apply sqrt_pos).
  unfold Rdiv. apply Rmult_le_compat_l; [lra|].
  apply Rinv_le_contravar; lra.
Qed.

(** C6: the relevance matrix of the targeting pass. *)
Theorem relevant_matrix (enemy_kind : EntityKind) (alt : Altitude) (sk : EntitySubKind) :
  relevant enemy_kind alt sk = true <->
  ((enemy_kind = Aircraft \/ enemy_kind = Weapon) /\ is_airborne alt = true /\ sk = Sam) \/
  (enemy_kind = Boat /\ is_submerged alt = true /\ In sk [Torpedo; Plane; Heli; DepthCharge]) \/
  (enemy_kind = Boat /\ is_submerged alt = false /\
   In sk [Torpedo; Plane; Heli; DepthCharge; Rocket; Missile; Shell]).
Proof.
  unfold relevant.
  destruct (is_airborne alt), (is_submerged alt), enemy_kind, sk; simpl;
    split; intros H; try discriminate; try reflexivity;
    repeat match goal with
           | H : _ \/ _ |- _ => destruct H
           | H : _ /\ _ |- _ => destruct H
           | H : False |- _ => contradiction
           end; try discriminate; try tauto.
Qed.

(** C1 (as the code has it): for a non-friendly contact of kind Boat, the
    generic repulsion is added exactly when the bot's OWN vessel is not of
    sub-kind Ram; the contact's sub-kind plays no role. *)
Theorem hostile_boat_repulsion_gated_by_own_sub_kind (pid : nat) (boat : Contact)
    (d : EntityData) (movement : Vec2) (closest : option (Contact * R))
    (contact : Contact) (ct : EntityType) :
  c_id contact <> c_id boat ->
  c_entity_type contact = Some ct ->
  kind (data ct) = Boat ->
  opt_nat_eqb (c_player_id contact) (Some pid) = false ->
  fst (contact_step pid boat d (movement, closest) contact) =
    if EntitySubKind_beq (sub_kind d) Ram then movement
    else repel movement
           (vsub (position (c_transform contact)) (position (c_transform boat)))
           (length_squared (vsub (position (c_transform contact)) (position (c_transform boat)))).
Proof.
  intros Hid Ht Hk Hf. unfold contact_step.
  rewrite (proj2 (Nat.eqb_neq _ _) Hid), Ht, Hk, Hf. simpl.
  destruct (EntitySubKind_beq (sub_kind d) Ram); simpl;
    destruct closest as [[? ?]|]; try destruct (Rlt_dec _ _); reflexivity.
Qed.

(** C9: the alive branch is taken exactly when the FIRST contact is a boat of
    the controller's player; otherwise the call is the dead-vessel branch
    (rage-quit or [Spawn]), whatever the later contacts are. *)
Theorem alive_branch_iff_first_contact_is_own_boat (b : Bot) (u : Complete) (r : Draws) :
  (first_contact_is_own_boat u = true ->
   forall res, update b u r = Some res ->
     (exists c rest, fst (fst res) = Control c :: rest) /\
     snd (fst res) = false /\ spawned_at_least_once (snd res) = true) /\
  (first_contact_is_own_boat u = false ->
   update b u r = dead_update b r /\
   forall res, update b u r = Some res ->
     (fst (fst res) = [] /\ snd (fst res) = true) \/
     (exists e, fst (fst res) = [Spawn e] /\ snd (fst res) = false)).
Proof.
  unfold first_contact_is_own_boat, update. split.
  - destruct (contacts u) as [|boat rest]; [discriminate|].
    intros H res. rewrite H. unfold alive_update.
    destruct (c_entity_type boat) as [t|]; [|discriminate].
    destruct (scan_contacts _ _ _ _ _) as [mv [[e ?]|]].
    + destruct (targeting boat (data t) e) as [best|]; [|discriminate].
      intros E. injection E as <-. simpl.
      split; [eexists; eexists; reflexivity|split; reflexivity].
    + intros E. injection E as <-. simpl.
      split; [eexists; eexists; reflexivity|split; reflexivity].
  - intros H. assert (E : match contacts u with
                          | boat :: rest =>
                              if is_own_boat (player_id u) boat
                              then alive_update b u r boat rest else dead_update b r
                          | [] => dead_update b r end = dead_update b r)
      by (destruct (contacts u); [reflexivity|]; rewrite H; reflexivity).
    rewrite E. split; [reflexivity|].
    intros res. unfold dead_update.
    destruct (spawned_at_least_once b && quit_roll r).
    + intros F. injection F as <-. left. simpl. auto.
    + destruct (choose _ _) as [e|]; [|discriminate].
      intros F. injection F as <-. right. simpl. eauto.
Qed.

Lemma wrap_i16_range (z : Z) : (-32768 <= wrap_i16 z <= 32767)%Z.
Proof.
  unfold wrap_i16. pose proof (Z.mod_pos_bound (z + 32768) 65536). lia.
Qed.

Lemma angle_abs_range (a : Angle) :
  (-32768 <= a <= 32767)%Z -> (0 <= angle_abs a <= Angle_MAX)%Z.
Proof.
  unfold angle_abs, Angle_MAX. intros H.
  destruct (Z.eqb_spec a (-32768)); lia.
Qed.

(** A candidate's deviation is an angle in [0, Angle::MAX]. *)
Lemma candidate_range (boat : Contact) (d : EntityData) (e : Contact)
    (ed : EntityData) (i : nat) (a : Armament) (x : Angle) :
  candidate boat d e ed i a = Some (Some x) -> (0 <= x <= Angle_MAX)%Z.
Proof.
  unfold candidate.
  destruct (nth_error (c_reloads boat) i); [|discriminate].
  destruct (0 <? _)%N; [discriminate|].
  destruct (is_weapon_or_aircraft _); [|discriminate]. simpl.
  destruct (relevant _ _ _); [|discriminate]. simpl.
  destruct (turret_ok boat d a) as [[|]|]; simpl; try discriminate.
  destruct (_ || _); intros E; injection E as <-.
  - unfold Angle_ZERO, Angle_MAX. lia.
  - apply angle_abs_range, wrap_i16_range.
Qed.

(** A candidate passed every filter of the loop body. *)
Lemma candidate_filters (boat : Contact) (d : EntityData) (e : Contact)
    (ed : EntityData) (i : nat) (a : Armament) (x : Angle) :
  candidate boat d e ed i a = Some (Some x) ->
  nth_error (c_reloads boat) i = Some 0%N /\
  is_weapon_or_aircraft (kind (data (arm_entity_type a))) = true /\
  relevant (kind ed) (c_altitude e) (sub_kind (data (arm_entity_type a))) = true /\
  turret_ok boat d a = Some true.
Proof.
  unfold candidate.
  destruct (nth_error (c_reloads boat) i) as [rl|]; [|discriminate].
  destruct (N.ltb_spec 0 rl); [discriminate|].
  assert (rl = 0%N) as -> by lia.
  destruct (is_weapon_or_aircraft _); [|discriminate]. simpl.
  destruct (relevant _ _ _); [|discriminate]. simpl.
  destruct (turret_ok boat d a) as [[|]|]; simpl; try discriminate.
  intros _. auto.
Qed.

(** The invariant of the targeting loop: the result never has a larger
    deviation than the running best nor than any candidate, and it is either
    the running best or the first candidate of the smallest deviation. *)
Lemma targeting_loop_spec (boat : Contact) (d : EntityData) (e : Contact) (ed : EntityData) :
  forall arms i best res,
  targeting_loop boat d e ed i arms best = Some res ->
  (best_diff res <= best_diff best)%Z /\
  (forall j a dj, nth_error arms j = Some a ->
     candidate boat d e ed (i + j) a = Some (Some dj) -> (best_diff res <= dj)%Z) /\
  (res = best \/
   exists j a s, res = Some s /\ nth_error arms j = Some a /\
     candidate boat d e ed (i + j) a = Some (Some (fs_diff s)) /\
     fs_index s = u8_of_nat (i + j) /\ fs_position s = position (c_transform e) /\
     (fs_diff s < best_diff best)%Z /\
     (forall j' a' dj, (j' < j)%nat -> nth_error arms j' = Some a' ->
        candidate boat d e ed (i + j') a' = Some (Some dj) -> (fs_diff s < dj)%Z)).
Proof.
  induction arms as [|a arms IH]; intros i best res H; simpl in H.
  - injection H as <-. split; [lia|]. split; [|left; reflexivity].
    intros [|j] a' dj Hn; discriminate.
  - destruct (candidate boat d e ed i a) as [[x|]|] eqn:Hc; [|  |discriminate].
    + destruct (Z.ltb_spec x (best_diff best)) as [Hlt|Hge].
      * apply IH in H as (H1 & H2 & H3). simpl in H1.
        split; [lia|]. split.
        { intros [|j] a' dj Hn Hj; simpl in Hn.
          - injection Hn as <-. rewrite Nat.add_0_r, Hc in Hj. injection Hj as <-. lia.
          - rewrite Nat.add_succ_r in Hj. apply (H2 j a' dj Hn Hj). }
        right. destruct H3 as [->|(j & a' & s & -> & Hn & Hcs & Hi & Hp & Hd & Hf)].
        { exists 0%nat, a, (mkFiringSolution (u8_of_nat i) (position (c_transform e)) x).
          simpl. rewrite Nat.add_0_r. repeat split; auto.
          intros j' a'' dj Hj'. lia. }
        { exists (S j), a', s. simpl in Hd. rewrite Nat.add_succ_r.
          repeat split; auto; try lia.
          intros [|j'] a'' dj Hj' Hn' Hc'; simpl in Hn'.
          - injection Hn' as <-. rewrite Nat.add_0_r, Hc in Hc'. injection Hc' as <-. lia.
          - rewrite Nat.add_succ_r in Hc'. apply (Hf j' a'' dj); auto; lia. }
      * apply IH in H as (H1 & H2 & H3).
        split; [lia|]. split.
        { intros [|j] a' dj Hn Hj; simpl in Hn.
          - injection Hn as <-. rewrite Nat.add_0_r, Hc in Hj. injection Hj as <-. lia.
          - rewrite Nat.add_succ_r in Hj. apply (H2 j a' dj Hn Hj). }
        destruct H3 as [->|(j & a' & s & -> & Hn & Hcs & Hi & Hp & Hd & Hf)]; [left; reflexivity|].
        right. exists (S j), a', s. rewrite Nat.add_succ_r.
        repeat split; auto.
        intros [|j'] a'' dj Hj' Hn' Hc'; simpl in Hn'.
        -- injection Hn' as <-. rewrite Nat.add_0_r, Hc in Hc'. injection Hc' as <-. lia.
        -- rewrite Nat.add_succ_r in Hc'. apply (Hf j' a'' dj); auto; lia.
    + apply IH in H as (H1 & H2 & H3).
      split; [lia|]. split.
      { intros [|j] a' dj Hn Hj; simpl in Hn.
        - injection Hn as <-. rewrite Nat.add_0_r, Hc in Hj. discriminate.
        - rewrite Nat.add_succ_r in Hj. apply (H2 j a' dj Hn Hj). }
      destruct H3 as [->|(j & a' & s & -> & Hn & Hcs & Hi & Hp & Hd & Hf)]; [left; reflexivity|].
      right. exists (S j), a', s. rewrite Nat.add_succ_r.
      repeat split; auto.
      intros [|j'] a'' dj Hj' Hn' Hc'; simpl in Hn'.
      * injection Hn' as <-. rewrite Nat.add_0_r, Hc in Hc'. discriminate.
      * rewrite Nat.add_succ_r in Hc'. apply (Hf j' a'' dj); auto; lia.
Qed.

(** The selected firing solution of [targeting]. *)
Lemma targeting_some_spec (boat : Contact) (d : EntityData) (e : Contact) (s : FiringSolution) :
  targeting boat d e = Some (Some s) ->
  exists et i a, c_entity_type e = Some et /\ nth_error (armaments d) i = Some a /\
    candidate boat d e (data et) i a = Some (Some (fs_diff s)) /\
    fs_index s = u8_of_nat i /\ fs_position s = position (c_transform e) /\
    (fs_diff s < Angle_MAX)%Z.
Proof.
  unfold targeting. destruct (c_entity_type e) as [et|]; [|discriminate].
  intros H. apply targeting_loop_spec in H as (_ & _ & [H|H]); [discriminate|].
  destruct H as (j & a & s' & E & Hn & Hc & Hi & Hp & Hd & _).
  injection E as <-. exists et, j, a. simpl in Hd. auto 7.
Qed.

(** C5 (as the code has it): the selection is the first candidate, in index
    order, of minimum deviation, provided that minimum is below
    [Angle::MAX]; when every candidate has deviation [Angle::MAX], nothing
    is selected. *)
Theorem targeting_selects_first_minimum (boat : Contact) (d : EntityData) (e : Contact)
    (et : EntityType) (res : option FiringSolution) :
  c_entity_type e = Some et ->
  targeting boat d e = Some res ->
  match res with
  | Some s =>
      exists i a, nth_error (armaments d) i = Some a /\
        candidate boat d e (data et) i a = Some (Some (fs_diff s)) /\
        fs_index s = u8_of_nat i /\ (fs_diff s < Angle_MAX)%Z /\
        (forall j a' dj, nth_error (armaments d) j = Some a' ->
           candidate boat d e (data et) j a' = Some (Some dj) -> (fs_diff s <= dj)%Z) /\
        (forall j a' dj, (j < i)%nat -> nth_error (armaments d) j = Some a' ->
           candidate boat d e (data et) j a' = Some (Some dj) -> (fs_diff s < dj)%Z)
  | None =>
      forall j a' dj, nth_error (armaments d) j = Some a' ->
        candidate boat d e (data et) j a' = Some (Some dj) -> dj = Angle_MAX
  end.
Proof.
  intros Het. unfold targeting. rewrite Het. intros H.
  apply targeting_loop_spec in H as (H1 & H2 & H3). simpl in H2.
  destruct res as [s|].
  - destruct H3 as [H3|(j & a & s' & E & Hn & Hc & Hi & Hp & Hd & Hf)]; [discriminate|].
    injection E as <-. exists j, a. simpl in Hd. repeat split; auto.
  - intros j a' dj Hn Hc. specialize (H2 j a' dj Hn Hc).
    apply candidate_range in Hc. simpl in H2. unfold Angle_MAX in *. lia.
Qed.

(** C10: a candidate of deviation [Angle::MAX] is never the selection, even
    when it is the only candidate. *)
Theorem targeting_never_selects_max_deviation (boat : Contact) (d : EntityData) (e : Contact)
    (et : EntityType) (res : option FiringSolution) :
  c_entity_type e = Some et ->
  targeting boat d e = Some res ->
  (forall s, res = Some s ->
     (fs_diff s < Angle_MAX)%Z /\
     exists isel a, nth_error (armaments d) isel = Some a /\ fs_index s = u8_of_nat isel /\
       candidate boat d e (data et) isel a = Some (Some (fs_diff s)) /\
       forall i a', nth_error (armaments d) i = Some a' ->
         candidate boat d e (data et) i a' = Some (Some Angle_MAX) -> i <> isel) /\
  ((forall j a' dj, nth_error (armaments d) j = Some a' ->
      candidate boat d e (data et) j a' = Some (Some dj) -> dj = Angle_MAX) ->
   res = None).
Proof.
  intros Het H. pose proof (targeting_selects_first_minimum boat d e et res Het H) as Hs.
  split.
  - intros s ->. destruct Hs as (i & a & Hn & Hc & Hi & Hd & _).
    split; [exact Hd|]. exists i, a. repeat split; auto.
    intros i' a' Hn' Hc' ->. rewrite Hn in Hn'. injection Hn' as <-.
    rewrite Hc in Hc'. injection Hc' as Hc'. lia.
  - intros Hall. destruct res as [s|]; [|reflexivity].
    destruct Hs as (i & a & Hn & Hc & _ & Hd & _).
    specialize (Hall i a _ Hn Hc). lia.
Qed.

(** C3 (as the code has it): a turret-mounted armament is a candidate only
    when its turret's CURRENT orientation passes [within_azimuth]; the gate
    reads the vessel's data and turret angles, not the hostile. *)
Theorem turret_gate_reads_turret_orientation (boat : Contact) (d : EntityData) (e : Contact)
    (s : FiringSolution) :
  targeting boat d e = Some (Some s) ->
  exists i a, nth_error (armaments d) i = Some a /\ fs_index s = u8_of_nat i /\
    turret_ok boat d a = Some true /\
    forall turret_index, arm_turret a = Some turret_index ->
      exists t o, nth_error (turrets d) turret_index = Some t /\
        nth_error (c_turrets boat) turret_index = Some o /\ within_azimuth t o = true.
Proof.
  intros H. apply targeting_some_spec in H as (et & i & a & _ & Hn & Hc & Hi & _).
  apply candidate_filters in Hc as (_ & _ & _ & Ht).
  exists i, a. repeat split; auto.
  intros ti Hti. unfold turret_ok in Ht. rewrite Hti in Ht.
  destruct (nth_error (turrets d) ti) as [t|]; [|discriminate].
  destruct (nth_error (c_turrets boat) ti) as [o|]; [|discriminate].
  injection Ht as Ht. eauto.
Qed.

(** The two shapes of a completed call. *)
Lemma update_shape (b : Bot) (u : Complete) (r : Draws) res :
  update b u r = Some res ->
  (fst res = ([], true) \/ exists e, fst res = ([Spawn e], false)) \/
  exists boat rest t mv closest best,
    contacts u = boat :: rest /\ is_own_boat (player_id u) boat = true /\
    c_entity_type boat = Some t /\
    scan_contacts (player_id u) boat (data t) rest (terrain_pass u boat (data t), None)
      = (mv, closest) /\
    match closest with
    | Some (e, _) => targeting boat (data t) e = Some best
    | None => best = None
    end /\
    fst res = (control_command b (data t) (1 - c_damage_secs boat / max_health_secs (data t))
                 mv best :: second_commands b (data t) t best (score u) r, false).
Proof.
  assert (Hdead : dead_update b r = Some res ->
                  fst res = ([], true) \/ exists e, fst res = ([Spawn e], false)).
  { unfold dead_update. destruct (spawned_at_least_once b && quit_roll r).
    - intros E. injection E as <-. left. reflexivity.
    - destruct (choose _ _) as [e|]; [|discriminate].
      intros E. injection E as <-. right. exists e. reflexivity. }
  unfold update. destruct (contacts u) as [|boat rest] eqn:Hu; [intros H; left; apply Hdead, H|].
  destruct (is_own_boat (player_id u) boat) eqn:Ho; [|intros H; left; apply Hdead, H].
  unfold alive_update. destruct (c_entity_type boat) as [t|] eqn:Ht; [|discriminate].
  destruct (scan_contacts _ _ _ _ _) as [mv closest] eqn:Hs.
  destruct closest as [[e de]|].
  - destruct (targeting boat (data t) e) as [best|] eqn:Htg; [|discriminate].
    intros E. injection E as <-. right.
    exists boat, rest, t, mv, (Some (e, de)), best. auto 7.
  - intros E. injection E as <-. right.
    exists boat, rest, t, mv, None, None. auto 7.
Qed.

(** Every [Fire] of a call comes from the selected firing solution for the
    closest enemy. *)
Lemma update_fire_inv (b : Bot) (u : Complete) (r : Draws) res k p :
  update b u r = Some res -> In (Fire k p) (fst (fst res)) ->
  exists boat rest t mv e de s,
    contacts u = boat :: rest /\ is_own_boat (player_id u) boat = true /\
    c_entity_type boat = Some t /\
    scan_contacts (player_id u) boat (data t) rest (terrain_pass u boat (data t), None)
      = (mv, Some (e, de)) /\
    targeting boat (data t) e = Some (Some s) /\
    k = fs_index s /\ p = fs_position s /\
    In (control_command b (data t) (1 - c_damage_secs boat / max_health_secs (data t))
          mv (Some s)) (fst (fst res)).
Proof.
  intros H Hin. apply update_shape in H
    as [[E|[e' E]]|(boat & rest & t & mv & closest & best & Hu & Ho & Ht & Hs & Hb & E)];
    rewrite E in Hin; simpl in Hin.
  - contradiction.
  - destruct Hin as [Hin|Hin]; [discriminate|contradiction].
  - destruct Hin as [Hin|Hin]; [discriminate|].
    unfold second_commands in Hin.
    destruct (aggression_roll r); [|contradiction].
    destruct best as [s|].
    + destruct (Z.ltb _ _); [|contradiction].
      destruct Hin as [Hin|Hin]; [|contradiction]. injection Hin as <- <-.
      destruct closest as [[e de]|]; [|discriminate].
      exists boat, rest, t, mv, e, de, s. rewrite E. simpl. auto 10.
    + destruct (Nat.ltb _ _); [|contradiction].
      destruct (choose _ _); simpl in Hin;
        repeat (destruct Hin as [Hin|Hin]; [discriminate|]); contradiction.
Qed.

Lemma second_commands_no_control (b : Bot) (d : EntityData) (t : EntityType)
    (best : option FiringSolution) (sc : nat) (r : Draws) (c : ControlData) :
  ~ In (Control c) (second_commands b d t best sc r).
Proof.
  unfold second_commands.
  destruct (aggression_roll r); [|simpl; tauto].
  destruct best as [s|].
  - destruct (Z.ltb _ _); simpl; [intros [H|H]; [discriminate|contradiction]|tauto].
  - destruct (Nat.ltb _ _); [|simpl; tauto].
    destruct (choose _ _); simpl; [intros [H|H]; [discriminate|contradiction]|tauto].
Qed.

(** C2 (as the code has it): a [Fire] aims at the closest enemy's exact
    position, while the [Control] of the same call carries that position
    offset by [aim_bias] as its [aim_target]. *)
Theorem fire_targets_unbiased_hostile_position (b : Bot) (u : Complete) (r : Draws)
    res (k : Z) (p : Vec2) :
  update b u r = Some res -> In (Fire k p) (fst (fst res)) ->
  exists boat rest t mv e de c,
    contacts u = boat :: rest /\ c_entity_type boat = Some t /\
    scan_contacts (player_id u) boat (data t) rest (terrain_pass u boat (data t), None)
      = (mv, Some (e, de)) /\
    p = position (c_transform e) /\
    In (Control c) (fst (fst res)) /\ aim_target c = Some (vadd p (aim_bias b)).
Proof.
  intros H Hin.
  destruct (update_fire_inv b u r res k p H Hin)
    as (boat & rest & t & mv & e & de & s & Hu & _ & Ht & Hs & Htg & -> & -> & Hc).
  destruct (targeting_some_spec boat (data t) e s Htg) as (_ & _ & _ & _ & _ & _ & _ & Hp & _).
  unfold control_command in Hc.
  eexists boat, rest, t, mv, e, de, _. repeat split; eauto.
Qed.

(** C7: an armament whose reload timer is nonzero is never the selected
    firing solution (the selection that also supplies the [Control]'s aim
    target): the selected armament [isel] has timer zero and differs from
    every index with a nonzero timer.  A [Fire] command is built from that
    selection, its index being [isel as u8], so no [Fire] comes from a
    reloading armament. *)
Theorem reloading_armament_never_selected :
  (forall (boat : Contact) (d : EntityData) (e : Contact) (s : FiringSolution),
     targeting boat d e = Some (Some s) ->
     exists isel a, nth_error (armaments d) isel = Some a /\
       fs_index s = u8_of_nat isel /\
       nth_error (c_reloads boat) isel = Some 0%N /\
       forall j rl, nth_error (c_reloads boat) j = Some rl -> rl <> 0%N -> j <> isel) /\
  (forall (b : Bot) (u : Complete) (r : Draws) res (k : Z) (p : Vec2),
     update b u r = Some res -> In (Fire k p) (fst (fst res)) ->
     exists boat rest t isel,
       contacts u = boat :: rest /\ c_entity_type boat = Some t /\
       (isel < List.length (armaments (data t)))%nat /\ k = u8_of_nat isel /\
       nth_error (c_reloads boat) isel = Some 0%N /\
       forall j rl, nth_error (c_reloads boat) j = Some rl -> rl <> 0%N -> j <> isel).
Proof.
  assert (Hsel : forall (boat : Contact) (d : EntityData) (e : Contact) (s : FiringSolution),
     targeting boat d e = Some (Some s) ->
     exists isel a, nth_error (armaments d) isel = Some a /\
       fs_index s = u8_of_nat isel /\
       nth_error (c_reloads boat) isel = Some 0%N /\
       forall j rl, nth_error (c_reloads boat) j = Some rl -> rl <> 0%N -> j <> isel).
  { intros boat d e s H.
    destruct (targeting_some_spec boat d e s H) as (et & i & a & _ & Hn & Hca & Hi & _ & _).
    apply candidate_filters in Hca as (Hr & _).
    exists i, a. repeat split; auto.
    intros j rl Hj Hrl ->. rewrite Hr in Hj. injection Hj as <-. contradiction. }
  split; [exact Hsel|].
  intros b u r res k p H Hin.
  destruct (update_fire_inv b u r res k p H Hin)
    as (boat & rest & t & mv & e & de & s & Hu & _ & Ht & Hs & Htg & -> & -> & Hc).
  destruct (Hsel _ _ _ _ Htg) as (isel & a & Hn & Hi & Hr & Hne).
  exists boat, rest, t, isel. repeat split; auto.
  apply nth_error_Some. rewrite Hn. discriminate.
Qed.

(** C4 (as the code has it): an [Upgrade] is emitted exactly when the
    aggression draw succeeds, there is NO firing solution (the [Control]
    has no aim target), the level is below [level_ambition] and an upgrade
    option is drawn; a firing solution at 60 degrees or more gives no second
    command at all. *)
Theorem upgrade_only_without_firing_solution (b : Bot) (u : Complete) (r : Draws) res :
  update b u r = Some res ->
  (forall e, In (Upgrade e) (fst (fst res)) <->
    aggression_roll r = true /\
    exists boat rest t c,
      contacts u = boat :: rest /\ is_own_boat (player_id u) boat = true /\
      c_entity_type boat = Some t /\
      In (Control c) (fst (fst res)) /\ aim_target c = None /\
      (level (data t) < level_ambition b)%nat /\
      choose (upgrade_pick r) (upgrade_options t (score u) true) = Some e) /\
  (forall boat rest t mv e de s,
     contacts u = boat :: rest -> is_own_boat (player_id u) boat = true ->
     c_entity_type boat = Some t ->
     scan_contacts (player_id u) boat (data t) rest (terrain_pass u boat (data t), None)
       = (mv, Some (e, de)) ->
     targeting boat (data t) e = Some (Some s) ->
     (angle_60_degrees <= fs_diff s)%Z ->
     fst (fst res) =
       [control_command b (data t) (1 - c_damage_secs boat / max_health_secs (data t))
          mv (Some s)]).
Proof.
  intros H. split.
  2:{ intros boat rest t mv e de s Hu Ho Ht Hs Htg H60.
      unfold update in H. rewrite Hu, Ho in H. unfold alive_update in H.
      rewrite Ht in H. cbv beta iota zeta in H. rewrite Hs in H.
      cbv beta iota zeta in H. rewrite Htg in H. cbv beta iota zeta in H.
      injection H as <-. simpl. f_equal.
      unfold second_commands. destruct (aggression_roll r); [|reflexivity].
      destruct (Z.ltb_spec (fs_diff s) angle_60_degrees); [lia|reflexivity]. }
  intros e. apply update_shape in H
    as [[E|[e' E]]|(boat & rest & t & mv & closest & best & Hu & Ho & Ht & Hs & Hb & E)];
    rewrite E; simpl.
  - split; [tauto|]. intros (_ & _ & _ & _ & c & _ & _ & _ & [] & _).
  - split; [intros [H|H]; [discriminate|contradiction]|].
    intros (_ & _ & _ & _ & c & _ & _ & _ & [H|H] & _); [discriminate|contradiction].
  - split.
    + intros [Hin|Hin]; [discriminate|].
      unfold second_commands in Hin.
      destruct (aggression_roll r) eqn:Hr; [|contradiction].
      destruct best as [s|].
      * destruct (Z.ltb _ _); simpl in Hin; [destruct Hin as [Hin|Hin]; [discriminate|]|]; contradiction.
      * destruct (Nat.ltb_spec (level (data t)) (level_ambition b)); [|contradiction].
        destruct (choose _ _) as [e'|] eqn:Hch; simpl in Hin; [|contradiction].
        destruct Hin as [Hin|Hin]; [|contradiction]. injection Hin as ->.
        split; [reflexivity|].
        exists boat, rest, t,
          (mkControl (Some (mkGuidance (angle_from_vec mv) (speed (data t) * 0.8))) None
             (if EntitySubKind_beq (sub_kind (data t)) Submarine then
                Some (if Rlt_dec (aggression b)
                           (1 - c_damage_secs boat / max_health_secs (data t))
                      then Altitude_ZERO else Altitude_MIN)
              else None)
             None
             (if Rle_dec 0.5 (1 - c_damage_secs boat / max_health_secs (data t))
              then true else false)).
        repeat split; auto.
    + intros (Hr & boat' & rest' & t' & c & Hu' & _ & Ht' & Hc & Ha & Hl & Hch).
      rewrite Hu in Hu'. injection Hu' as <- <-. rewrite Ht in Ht'. injection Ht' as <-.
      destruct Hc as [Hc|Hc].
      * unfold control_command in Hc. injection Hc as <-. simpl in Ha.
        destruct best as [s|]; [discriminate|].
        right. unfold second_commands. rewrite Hr.
        rewrite (proj2 (Nat.ltb_lt _ _) Hl), Hch. left. reflexivity.
      * exfalso. apply (second_commands_no_control _ _ _ _ _ _ _ Hc).
Qed.

End Properties.

(** ** Further properties of [bot.rs] *)

Section Extras.
Context `{CM : Common}.

Lemma vec2_eq (a b : Vec2) : vx a = vx b -> vy a = vy b -> a = b.
Proof. destruct a, b; simpl; intros -> ->; reflexivity. Qed.

Lemma choose_in {A : Type} (k : nat) (l : list A) (x : A) : choose k l = Some x -> In x l.
Proof. unfold choose. destruct l as [|y l']; [discriminate|]. apply nth_error_In. Qed.

Lemma choose_none_iff {A : Type} (k : nat) (l : list A) : choose k l = None <-> l = [].
Proof.
  unfold choose. destruct l as [|y l']; [split; reflexivity|].
  split; [|discriminate]. intros H. apply nth_error_None in H.
  assert (k mod List.length (y :: l') < List.length (y :: l'))%nat
    by (apply Nat.mod_upper_bound; simpl; lia).
  lia.
Qed.

Lemma update_cases (b : Bot) (u : Complete) (r : Draws) :
  (exists boat rest, contacts u = boat :: rest /\ is_own_boat (player_id u) boat = true /\
     first_contact_is_own_boat u = true /\ update b u r = alive_update b u r boat rest) \/
  (first_contact_is_own_boat u = false /\ update b u r = dead_update b r).
Proof.
  unfold update, first_contact_is_own_boat. destruct (contacts u) as [|boat rest].
  - right. split; reflexivity.
  - destruct (is_own_boat (player_id u) boat) eqn:Ho.
    + left. exists boat, rest. repeat split; assumption.
    + right. split; reflexivity.
Qed.

Lemma alive_update_result (b : Bot) (u : Complete) (r : Draws) boat rest res :
  alive_update b u r boat rest = Some res ->
  snd res = set_spawned b /\ snd (fst res) = false /\
  exists t mv closest best,
    c_entity_type boat = Some t /\
    scan_contacts (player_id u) boat (data t) rest (terrain_pass u boat (data t), None)
      = (mv, closest) /\
    match closest with
    | Some (e, _) => targeting boat (data t) e = Some best
    | None => best = None
    end /\
    fst (fst res) = control_command b (data t) (1 - c_damage_secs boat / max_health_secs (data t))
                      mv best :: second_commands b (data t) t best (score u) r.
Proof.
  unfold alive_update. destruct (c_entity_type boat) as [t|]; [|discriminate].
  destruct (scan_contacts _ _ _ _ _) as [mv closest] eqn:Hs.
  destruct closest as [[e de]|].
  - destruct (targeting boat (data t) e) as [best|] eqn:Htg; [|discriminate].
    intros E. injection E as <-. simpl. split; [reflexivity|]. split; [reflexivity|].
    exists t, mv, (Some (e, de)), best. auto.
  - intros E. injection E as <-. simpl. split; [reflexivity|]. split; [reflexivity|].
    exists t, mv, None, None. auto.
Qed.

Lemma dead_update_result (b : Bot) (r : Draws) res :
  dead_update b r = Some res ->
  snd res = b /\
  ((spawned_at_least_once b && quit_roll r = true /\ fst res = ([], true)) \/
   (spawned_at_least_once b && quit_roll r = false /\
    exists e, choose (spawn_pick r) (spawn_options true) = Some e /\
              fst res = ([Spawn e], false))).
Proof.
  unfold dead_update. destruct (spawned_at_least_once b && quit_roll r) eqn:Hq.
  - intros E. injection E as <-. simpl. auto.
  - destruct (choose _ _) as [e|] eqn:Hc; [|discriminate].
    intros E. injection E as <-. simpl. split; [reflexivity|]. right. eauto.
Qed.

Lemma second_commands_length (b : Bot) (d : EntityData) (t : EntityType)
    (best : option FiringSolution) (sc : nat) (r : Draws) :
  (List.length (second_commands b d t best sc r) <= 1)%nat.
Proof.
  unfold second_commands. destruct (aggression_roll r); [|simpl; lia].
  destruct best as [s|]; [destruct (Z.ltb _ _); simpl; lia|].
  destruct (Nat.ltb _ _); [|simpl; lia]. destruct (choose _ _); simpl; lia.
Qed.

Lemma second_commands_no_fire_without_solution (b : Bot) (d : EntityData) (t : EntityType)
    (sc : nat) (r : Draws) (k : Z) (p : Vec2) :
  ~ In (Fire k p) (second_commands b d t None sc r).
Proof.
  unfold second_commands. destruct (aggression_roll r); [|simpl; tauto].
  destruct (Nat.ltb _ _); [|simpl; tauto].
  destruct (choose _ _); simpl; [intros [H|H]; [discriminate|contradiction]|tauto].
Qed.

(** How one contact moves [closest_enemy]. *)
Lemma contact_step_closest (pid : nat) (boat : Contact) (d : EntityData) (mv : Vec2)
    (cl : option (Contact * R)) (c : Contact) :
  snd (contact_step pid boat d (mv, cl) c) =
  if is_enemy pid boat c then
    match cl with
    | Some (_, existing) =>
        if Rlt_dec (distance_squared_to boat c) existing
        then Some (c, distance_squared_to boat c) else cl
    | None => Some (c, distance_squared_to boat c)
    end
  else cl.
Proof.
  unfold contact_step, is_enemy, distance_squared_to.
  destruct (Nat.eqb (c_id c) (c_id boat)); simpl; [reflexivity|].
  destruct (c_entity_type c) as [ct|]; [|reflexivity].
  destruct (opt_nat_eqb (c_player_id c) (Some pid)); simpl; [reflexivity|].
  unfold is_enemy_kind.
  destruct (kind (data ct)); simpl; try reflexivity;
    try destruct (EntitySubKind_beq (sub_kind (data ct)) Missile); simpl;
    try reflexivity; destruct cl as [[? ?]|]; reflexivity.
Qed.

(** The invariant of the scan: [closest_enemy] is either unchanged, with no
    enemy of the scanned contacts strictly closer, or the first enemy of
    smallest distance, strictly closer than the starting one. *)
Lemma scan_closest_spec (pid : nat) (boat : Contact) (d : EntityData) :
  forall rest mv0 cl0,
  (snd (scan_contacts pid boat d rest (mv0, cl0)) = cl0 /\
   forall c, In c rest -> is_enemy pid boat c = true ->
     match cl0 with
     | Some (_, ex) => ex <= distance_squared_to boat c
     | None => False
     end) \/
  (exists e pre post,
     snd (scan_contacts pid boat d rest (mv0, cl0)) = Some (e, distance_squared_to boat e) /\
     rest = pre ++ e :: post /\ is_enemy pid boat e = true /\
     (forall x ex, cl0 = Some (x, ex) -> distance_squared_to boat e < ex) /\
     (forall c, In c pre -> is_enemy pid boat c = true ->
        distance_squared_to boat e < distance_squared_to boat c) /\
     (forall c, In c post -> is_enemy pid boat c = true ->
        distance_squared_to boat e <= distance_squared_to boat c)).
Proof.
  unfold scan_contacts.
  induction rest as [|c rest IH]; intros mv0 cl0.
  - left. split; [reflexivity|]. intros c [].
  - cbn [fold_left].
    pose proof (contact_step_closest pid boat d mv0 cl0 c) as Hcl.
    destruct (contact_step pid boat d (mv0, cl0) c) as [mv1 cl1] eqn:Hs.
    simpl in Hcl.
    destruct (IH mv1 cl1)
      as [(Heq & Hall)|(e & pre & post & He & Hr & Hen & Hlt & Hpre & Hpost)];
      rewrite ?Heq, ?He.
    + destruct (is_enemy pid boat c) eqn:Hc.
      * destruct cl0 as [[x ex]|].
        -- destruct (Rlt_dec (distance_squared_to boat c) ex) as [Hlt0|Hge0]; subst cl1.
           ++ right. exists c, [], rest. repeat split; auto.
              ** intros x' ex' E. injection E as <- <-. exact Hlt0.
              ** intros c' [].
           ++ left. split; [reflexivity|].
              intros c' [<-|Hin] Hc'; [lra|]. exact (Hall c' Hin Hc').
        -- subst cl1. right. exists c, [], rest. repeat split; auto.
           ++ intros x' ex' E. discriminate.
           ++ intros c' [].
      * subst cl1. left. split; [reflexivity|].
        intros c' [<-|Hin] Hc'; [congruence|]. exact (Hall c' Hin Hc').
    + right. exists e, (c :: pre), post. rewrite Hr. repeat split; auto.
      * intros x ex E. subst cl0.
        destruct (is_enemy pid boat c) eqn:Hc.
        -- destruct (Rlt_dec (distance_squared_to boat c) ex) as [Hlt0|Hge0]; subst cl1.
           ++ specialize (Hlt c (distance_squared_to boat c) eq_refl). lra.
           ++ exact (Hlt x ex eq_refl).
        -- subst cl1. exact (Hlt x ex eq_refl).
      * intros c' [<-|Hin] Hc'; [|exact (Hpre c' Hin Hc')].
        rewrite Hc' in Hcl. destruct cl0 as [[x ex]|].
        -- destruct (Rlt_dec (distance_squared_to boat c) ex) as [Hlt0|Hge0]; subst cl1.
           ++ exact (Hlt c _ eq_refl).
           ++ specialize (Hlt x ex eq_refl). lra.
        -- subst cl1. exact (Hlt c _ eq_refl).
Qed.

Lemma scan_no_enemy (pid : nat) (boat : Contact) (d : EntityData) (rest : list Contact)
    (mv0 : Vec2) :
  (forall c, In c rest -> is_enemy pid boat c = false) ->
  snd (scan_contacts pid boat d rest (mv0, None)) = None.
Proof.
  intros Hall.
  destruct (scan_closest_spec pid boat d rest mv0 None)
    as [(Heq & _)|(e & pre & post & He & Hr & Hen & _)]; [exact Heq|].
  rewrite Hall in Hen; [discriminate|]. rewrite Hr. apply in_or_app. right. left. reflexivity.
Qed.

(** A candidate is computed without a panic when its reload timer and its
    turret exist. *)
Lemma candidate_total (boat : Contact) (d : EntityData) (e : Contact) (ed : EntityData)
    (i : nat) (a : Armament) :
  (i < List.length (c_reloads boat))%nat ->
  (forall ti, arm_turret a = Some ti ->
     ti < List.length (turrets d) /\ ti < List.length (c_turrets boat))%nat ->
  candidate boat d e ed i a <> None.
Proof.
  intros Hi Ht. unfold candidate.
  destruct (nth_error (c_reloads boat) i) as [rl|] eqn:Hr;
    [|apply nth_error_None in Hr; lia].
  destruct (0 <? rl)%N; [discriminate|].
  destruct (is_weapon_or_aircraft _); simpl; [|discriminate].
  destruct (relevant _ _ _); simpl; [|discriminate].
  unfold turret_ok. destruct (arm_turret a) as [ti|] eqn:Ha.
  - destruct (Ht ti eq_refl) as [H1 H2].
    destruct (nth_error (turrets d) ti) eqn:E1; [|apply nth_error_None in E1; lia].
    destruct (nth_error (c_turrets boat) ti) eqn:E2; [|apply nth_error_None in E2; lia].
    destruct (within_azimuth _ _); simpl; [destruct (_ || _)|]; discriminate.
  - simpl. destruct (_ || _); discriminate.
Qed.

Lemma targeting_loop_total (boat : Contact) (d : EntityData) (e : Contact) (ed : EntityData) :
  forall arms i best,
  (forall j a, nth_error arms j = Some a ->
     (i + j < List.length (c_reloads boat))%nat /\
     (forall ti, arm_turret a = Some ti ->
        ti < List.length (turrets d) /\ ti < List.length (c_turrets boat))%nat) ->
  targeting_loop boat d e ed i arms best <> None.
Proof.
  induction arms as [|a arms IH]; intros i best H; simpl; [discriminate|].
  destruct (H 0%nat a eq_refl) as [H1 H2]. rewrite Nat.add_0_r in H1.
  assert (Hrest : forall j a', nth_error arms j = Some a' ->
     (S i + j < List.length (c_reloads boat))%nat /\
     (forall ti, arm_turret a' = Some ti ->
        ti < List.length (turrets d) /\ ti < List.length (c_turrets boat))%nat).
  { intros j a' Hn. destruct (H (S j) a' Hn) as [H3 H4]. split; [lia|exact H4]. }
  destruct (candidate boat d e ed i a) as [[x|]|] eqn:Hc.
  - destruct (Z.ltb _ _); apply IH; exact Hrest.
  - apply IH; exact Hrest.
  - exfalso. exact (candidate_total boat d e ed i a H1 H2 Hc).
Qed.

Lemma terrain_fold (u : Complete) (boat : Contact) (d : EntityData) :
  forall l acc,
  fold_left
    (fun movement i =>
       let angle := angle_from_radians (INR i * (2 * PI / INR SAMPLES)) in
       let delta_position := vscale (angle_to_vec angle) (entity_length d) in
       if is_land_or_border (vadd (position (c_transform boat)) delta_position)
            (terrain_sample u) (world_radius u)
       then repel movement delta_position (entity_length d ^ 2)
       else movement) l acc =
  vadd acc (vneg (fold_right vadd Vec2_ZERO (map (fun i =>
     let delta_position :=
       vscale (angle_to_vec (angle_from_radians (INR i * (2 * PI / INR SAMPLES))))
         (entity_length d) in
     if is_land_or_border (vadd (position (c_transform boat)) delta_position)
          (terrain_sample u) (world_radius u)
     then vdivs delta_position (1 + entity_length d ^ 2)
     else Vec2_ZERO) l))).
Proof.
  induction l as [|i l IH]; intros acc; simpl.
  - apply vec2_eq; simpl; ring.
  - rewrite IH. destruct (is_land_or_border _ _ _);
      apply vec2_eq; unfold repel, attract, vadd, vneg, vdivs; simpl; unfold Rdiv; ring.
Qed.

(** [Bot::new]: for a draw [x] in [0, 1), the aggression
    [x.powi(2) * MAX_AGGRESSION] lies in [0, MAX_AGGRESSION), and a new bot
    has not spawned yet. *)
Theorem new_aggression_below_max (x : R) (bias : Vec2) (ambition : nat) :
  0 <= x < 1 ->
  0 <= aggression (new x bias ambition) < MAX_AGGRESSION /\
  spawned_at_least_once (new x bias ambition) = false.
Proof.
  intros Hx. unfold new, MAX_AGGRESSION. simpl. split; [|reflexivity]. nra.
Qed.

(** The first [update] of a bot fresh from [Bot::new] never quits. *)
Theorem new_bot_first_update_never_quits (x : R) (bias : Vec2) (ambition : nat)
    (u : Complete) (r : Draws) res :
  update (new x bias ambition) u r = Some res -> snd (fst res) = false.
Proof.
  intros H.
  destruct (update_cases (new x bias ambition) u r)
    as [(boat & rest & _ & _ & _ & E)|(_ & E)]; rewrite E in H.
  - apply alive_update_result in H as (_ & H & _). exact H.
  - apply dead_update_result in H as (_ & [(Hs & _)|(_ & e & _ & Hr)]).
    + simpl in Hs. discriminate.
    + rewrite Hr. reflexivity.
Qed.

(** [update] quits only in the dead-vessel branch, only for a bot that had
    spawned before and whose 1/3 draw succeeded; a quitting call emits no
    command and leaves the bot unchanged. *)
Theorem update_quits_only_after_spawning (b : Bot) (u : Complete) (r : Draws) res :
  update b u r = Some res -> snd (fst res) = true ->
  first_contact_is_own_boat u = false /\ spawned_at_least_once b = true /\
  quit_roll r = true /\ fst (fst res) = [] /\ snd res = b.
Proof.
  intros H Hq.
  destruct (update_cases b u r) as [(boat & rest & _ & _ & Hf & E)|(Hf & E)]; rewrite E in H.
  - apply alive_update_result in H as (_ & H & _). congruence.
  - apply dead_update_result in H as (Hb & [(Hs & Hr)|(_ & e & _ & Hr)]).
    + apply andb_prop in Hs as [Hs1 Hs2]. rewrite Hr. simpl. auto.
    + rewrite Hr in Hq. discriminate.
Qed.

(** [update] changes no field of the bot but [spawned_at_least_once], which
    becomes true exactly when the vessel is found alive and never goes back
    to false. *)
Theorem update_changes_only_spawned_flag (b : Bot) (u : Complete) (r : Draws) res :
  update b u r = Some res ->
  aggression (snd res) = aggression b /\ aim_bias (snd res) = aim_bias b /\
  level_ambition (snd res) = level_ambition b /\
  spawned_at_least_once (snd res) = spawned_at_least_once b || first_contact_is_own_boat u.
Proof.
  intros H.
  destruct (update_cases b u r) as [(boat & rest & _ & _ & Hf & E)|(Hf & E)]; rewrite E in H.
  - apply alive_update_result in H as (Hb & _). rewrite Hb, Hf, orb_true_r. simpl. auto.
  - apply dead_update_result in H as (Hb & _). rewrite Hb, Hf, orb_false_r. auto.
Qed.

(** The [ArrayVec<Command, 2>] never overflows: a call returns at most two
    commands, and a [Control] command can only be the first. *)
Theorem update_at_most_two_commands (b : Bot) (u : Complete) (r : Draws) res :
  update b u r = Some res ->
  (List.length (fst (fst res)) <= 2)%nat /\
  (forall i c, nth_error (fst (fst res)) i = Some (Control c) -> i = 0%nat).
Proof.
  intros H.
  destruct (update_cases b u r) as [(boat & rest & _ & _ & _ & E)|(_ & E)]; rewrite E in H.
  - apply alive_update_result in H as (_ & _ & t & mv & closest & best & _ & _ & _ & Hc).
    rewrite Hc. split.
    + pose proof (second_commands_length b (data t) t best (score u) r). simpl. lia.
    + intros [|i] c Hn; [reflexivity|]. simpl in Hn. apply nth_error_In in Hn.
      exfalso. exact (second_commands_no_control _ _ _ _ _ _ _ Hn).
  - apply dead_update_result in H as (_ & [(_ & Hr)|(_ & e & _ & Hr)]); rewrite Hr;
      simpl; (split; [lia|]); intros i c Hn; destruct i as [|[|i]]; discriminate.
Qed.

(** Without a vessel of its own, [update] panics (the [expect] of line 286)
    exactly when it does not rage-quit and [spawn_options(true)] is empty. *)
Theorem update_panics_without_vessel_iff_no_spawn_option (b : Bot) (u : Complete) (r : Draws) :
  first_contact_is_own_boat u = false ->
  (update b u r = None <->
   spawned_at_least_once b && quit_roll r = false /\ spawn_options true = []).
Proof.
  intros Hf.
  destruct (update_cases b u r) as [(boat & rest & _ & _ & Hf' & _)|(_ & E)]; [congruence|].
  rewrite E. unfold dead_update. destruct (spawned_at_least_once b && quit_roll r).
  - split; [discriminate|]. intros [H _]. discriminate.
  - destruct (choose (spawn_pick r) (spawn_options true)) eqn:Hc.
    + split; [discriminate|]. intros [_ H].
      apply (proj2 (choose_none_iff (spawn_pick r) _)) in H. congruence.
    + split; [|reflexivity]. intros _. split; [reflexivity|].
      exact (proj1 (choose_none_iff _ _) Hc).
Qed.

(** With its own vessel first, [update] never panics when the vessel has a
    reload timer for every armament and every turret index of an armament
    exists both in the vessel's turret data and in its turret angles. *)
Theorem update_total_with_consistent_vessel (b : Bot) (u : Complete) (r : Draws)
    (boat : Contact) (rest : list Contact) (t : EntityType) :
  contacts u = boat :: rest -> is_own_boat (player_id u) boat = true ->
  c_entity_type boat = Some t ->
  (List.length (armaments (data t)) <= List.length (c_reloads boat))%nat ->
  (forall a ti, In a (armaments (data t)) -> arm_turret a = Some ti ->
     ti < List.length (turrets (data t)) /\ ti < List.length (c_turrets boat))%nat ->
  update b u r <> None.
Proof.
  intros Hu Ho Ht Hl Hturret. unfold update. rewrite Hu, Ho. unfold alive_update. rewrite Ht.
  destruct (scan_contacts (player_id u) boat (data t) rest (terrain_pass u boat (data t), None))
    as [mv closest] eqn:Hs.
  destruct closest as [[e de]|]; [|discriminate].
  destruct (scan_closest_spec (player_id u) boat (data t) rest (terrain_pass u boat (data t)) None)
    as [(Heq & _)|(e' & pre & post & He & _ & Hen & _)]; rewrite Hs in *; simpl in *;
    [discriminate|].
  injection He as <- _.
  unfold is_enemy in Hen. destruct (c_entity_type e) as [et|] eqn:Het;
    [|rewrite andb_false_r in Hen; discriminate].
  unfold targeting. rewrite Het.
  destruct (targeting_loop boat (data t) e (data et) 0 (armaments (data t)) None) eqn:Htl;
    [discriminate|].
  exfalso. revert Htl. apply targeting_loop_total.
  intros j a Hn. split.
  - simpl. apply Nat.lt_le_trans with (List.length (armaments (data t))); [|exact Hl].
    apply nth_error_Some. rewrite Hn. discriminate.
  - intros ti Hti. apply (Hturret a ti); [apply nth_error_In with j; exact Hn|exact Hti].
Qed.

(** The scan's [closest_enemy] is an enemy contact at its recorded squared
    distance: strictly nearer than every enemy before it and no farther
    than every enemy after it (the first nearest wins). *)
Theorem closest_enemy_is_first_nearest (pid : nat) (boat : Contact) (d : EntityData)
    (rest : list Contact) (mv0 mv : Vec2) (e : Contact) (de : R) :
  scan_contacts pid boat d rest (mv0, None) = (mv, Some (e, de)) ->
  exists pre post, rest = pre ++ e :: post /\ is_enemy pid boat e = true /\
    de = distance_squared_to boat e /\
    (forall c, In c pre -> is_enemy pid boat c = true -> de < distance_squared_to boat c) /\
    (forall c, In c post -> is_enemy pid boat c = true -> de <= distance_squared_to boat c).
Proof.
  intros H.
  destruct (scan_closest_spec pid boat d rest mv0 None)
    as [(Heq & _)|(e' & pre & post & He & Hr & Hen & _ & Hpre & Hpost)];
    rewrite H in *; simpl in *; [discriminate|].
  injection He as <- Hde. subst de. exists pre, post. repeat split; auto.
Qed.

(** The scan ends without a closest enemy exactly when no contact after the
    first is an enemy (other than the vessel, typed, not friendly, of kind
    Boat or Aircraft or a Missile weapon). *)
Theorem no_closest_enemy_iff_no_enemy (pid : nat) (boat : Contact) (d : EntityData)
    (rest : list Contact) (mv0 : Vec2) :
  snd (scan_contacts pid boat d rest (mv0, None)) = None <->
  forall c, In c rest -> is_enemy pid boat c = false.
Proof.
  destruct (scan_closest_spec pid boat d rest mv0 None)
    as [(Heq & Hall)|(e & pre & post & He & Hr & Hen & _)].
  - rewrite Heq. split; [|reflexivity]. intros _ c Hin.
    destruct (is_enemy pid boat c) eqn:Hc; [|reflexivity]. destruct (Hall c Hin Hc).
  - rewrite He. split; [discriminate|]. intros Hall.
    rewrite Hall in Hen; [discriminate|]. rewrite Hr. apply in_or_app. right. left. reflexivity.
Qed.

(** With no enemy among the contacts, a call fires nothing and its
    [Control] has no aim target. *)
Theorem no_enemy_no_fire (b : Bot) (u : Complete) (r : Draws) res
    (boat : Contact) (rest : list Contact) :
  contacts u = boat :: rest ->
  (forall c, In c rest -> is_enemy (player_id u) boat c = false) ->
  update b u r = Some res ->
  (forall k p, ~ In (Fire k p) (fst (fst res))) /\
  (forall c, In (Control c) (fst (fst res)) -> aim_target c = None).
Proof.
  intros Hu Hall H.
  destruct (update_cases b u r) as [(boat' & rest' & Hu' & _ & _ & E)|(_ & E)]; rewrite E in H.
  - rewrite Hu in Hu'. injection Hu' as <- <-.
    apply alive_update_result in H as (_ & _ & t & mv & closest & best & _ & Hs & Hb & Hc).
    pose proof (scan_no_enemy (player_id u) boat (data t) rest (terrain_pass u boat (data t)) Hall)
      as Hn.
    rewrite Hs in Hn. simpl in Hn. subst closest. subst best.
    rewrite Hc. split.
    + intros k p [Hin|Hin]; [discriminate|].
      exact (second_commands_no_fire_without_solution _ _ _ _ _ k p Hin).
    + intros c [Hin|Hin].
      * unfold control_command in Hin. injection Hin as <-. reflexivity.
      * exfalso. exact (second_commands_no_control _ _ _ _ _ _ _ Hin).
  - apply dead_update_result in H as (_ & [(_ & Hr)|(_ & e & _ & Hr)]); rewrite Hr; simpl;
      split; intros; intuition discriminate.
Qed.

(** A friendly boat contact OVERWRITES the movement vector with the spring
    term (line 86 assigns): whatever was accumulated before is discarded,
    and at the rest distance (sum of the radii) the movement becomes zero. *)
Theorem friendly_boat_overwrites_movement (pid : nat) (boat : Contact) (d : EntityData)
    (mv : Vec2) (cl : option (Contact * R)) (c : Contact) (ct : EntityType) :
  c_id c <> c_id boat -> c_entity_type c = Some ct -> kind (data ct) = Boat ->
  opt_nat_eqb (c_player_id c) (Some pid) = true ->
  contact_step pid boat d (mv, cl) c =
    (spring Vec2_ZERO (vsub (position (c_transform c)) (position (c_transform boat)))
       (radius d + radius (data ct)), cl) /\
  (vlength (vsub (position (c_transform c)) (position (c_transform boat)))
     = radius d + radius (data ct) ->
   fst (contact_step pid boat d (mv, cl) c) = Vec2_ZERO).
Proof.
  intros Hid Ht Hk Hf.
  assert (E : contact_step pid boat d (mv, cl) c =
    (spring Vec2_ZERO (vsub (position (c_transform c)) (position (c_transform boat)))
       (radius d + radius (data ct)), cl)).
  { unfold contact_step. rewrite (proj2 (Nat.eqb_neq _ _) Hid), Ht, Hk, Hf. reflexivity. }
  split; [exact E|]. intros Hl. rewrite E. simpl. unfold spring. rewrite Hl.
  replace (radius d + radius (data ct) - (radius d + radius (data ct))) with 0 by ring.
  apply vec2_eq; simpl; unfold Rdiv; ring.
Qed.

(** A non-friendly Obstacle is repelled twice (lines 126 and 142): its
    contribution is [-2 delta / (1 + d2)]; it never becomes the closest
    enemy. *)
Theorem hostile_obstacle_repelled_twice (pid : nat) (boat : Contact) (d : EntityData)
    (mv : Vec2) (cl : option (Contact * R)) (c : Contact) (ct : EntityType) :
  c_id c <> c_id boat -> c_entity_type c = Some ct -> kind (data ct) = Obstacle ->
  opt_nat_eqb (c_player_id c) (Some pid) = false ->
  contact_step pid boat d (mv, cl) c =
    (vadd mv (vscale (vneg (vsub (position (c_transform c)) (position (c_transform boat))))
                (2 / (1 + distance_squared_to boat c))), cl).
Proof.
  intros Hid Ht Hk Hf.
  unfold contact_step. rewrite (proj2 (Nat.eqb_neq _ _) Hid), Ht, Hk, Hf. simpl.
  f_equal. unfold distance_squared_to.
  pose proof (length_squared_nonneg (vsub (position (c_transform c)) (position (c_transform boat)))).
  apply vec2_eq; unfold repel, attract, vadd, vneg, vdivs, vscale; simpl; field; lra.
Qed.

(** A Collectible, friendly or not, is attracted (line 120) and never
    becomes the closest enemy. *)
Theorem collectible_attracts_never_enemy (pid : nat) (boat : Contact) (d : EntityData)
    (mv : Vec2) (cl : option (Contact * R)) (c : Contact) (ct : EntityType) :
  c_id c <> c_id boat -> c_entity_type c = Some ct -> kind (data ct) = Collectible ->
  contact_step pid boat d (mv, cl) c =
    (attract mv (vsub (position (c_transform c)) (position (c_transform boat)))
       (distance_squared_to boat c), cl).
Proof.
  intros Hid Ht Hk. unfold contact_step. rewrite (proj2 (Nat.eqb_neq _ _) Hid), Ht, Hk.
  destruct (opt_nat_eqb _ _); reflexivity.
Qed.

(** A friendly contact that is neither a Boat nor a Collectible (a friendly
    weapon, aircraft, decoy, ...) changes neither the movement vector nor
    the closest enemy. *)
Theorem friendly_non_boat_ignored (pid : nat) (boat : Contact) (d : EntityData)
    (mv : Vec2) (cl : option (Contact * R)) (c : Contact) (ct : EntityType) :
  c_entity_type c = Some ct -> kind (data ct) <> Boat -> kind (data ct) <> Collectible ->
  opt_nat_eqb (c_player_id c) (Some pid) = true ->
  contact_step pid boat d (mv, cl) c = (mv, cl).
Proof.
  intros Ht Hk1 Hk2 Hf. unfold contact_step.
  destruct (Nat.eqb (c_id c) (c_id boat)); [reflexivity|].
  rewrite Ht, Hf. destruct (kind (data ct)) eqn:Hk; try congruence; reflexivity.
Qed.

(** The scan skips the vessel itself and contacts of unknown type: it gives
    the same result on the list without them. *)
Theorem scan_ignores_self_and_untyped (pid : nat) (boat : Contact) (d : EntityData)
    (rest : list Contact) (acc : Vec2 * option (Contact * R)) :
  scan_contacts pid boat d rest acc =
  scan_contacts pid boat d
    (filter (fun c => negb (Nat.eqb (c_id c) (c_id boat)) &&
                      match c_entity_type c with Some _ => true | None => false end) rest)
    acc.
Proof.
  unfold scan_contacts. revert acc.
  induction rest as [|c rest IH]; intros acc; [reflexivity|].
  cbn [fold_left filter].
  destruct (Nat.eqb (c_id c) (c_id boat)) eqn:Hid; cbn [negb andb].
  - rewrite <- IH. replace (contact_step pid boat d acc c) with acc; [reflexivity|].
    destruct acc. unfold contact_step. rewrite Hid. reflexivity.
  - destruct (c_entity_type c) eqn:Ht.
    + cbn [fold_left]. apply IH.
    + rewrite <- IH. replace (contact_step pid boat d acc c) with acc; [reflexivity|].
      destruct acc. unfold contact_step. rewrite Hid, Ht. reflexivity.
Qed.

(** The terrain pass is minus the sum, over the ten sample directions whose
    point at one vessel length is land or border, of
    [delta / (1 + length^2)]. *)
Theorem terrain_pass_sum (u : Complete) (boat : Contact) (d : EntityData) :
  terrain_pass u boat d =
  vneg (fold_right vadd Vec2_ZERO (map (fun i =>
     let delta_position :=
       vscale (angle_to_vec (angle_from_radians (INR i * (2 * PI / INR SAMPLES))))
         (entity_length d) in
     if is_land_or_border (vadd (position (c_transform boat)) delta_position)
          (terrain_sample u) (world_radius u)
     then vdivs delta_position (1 + entity_length d ^ 2)
     else Vec2_ZERO) (seq 0 SAMPLES))).
Proof.
  unfold terrain_pass. rewrite terrain_fold.
  apply vec2_eq; unfold vadd, Vec2_ZERO; simpl; ring.
Qed.

(** The [Control] command's health gates, for a positive maximum health:
    [active] holds exactly when the damage is at most half the maximum; a
    submarine dives to [Altitude::MIN] exactly when its health fraction is
    at most the aggression, and only submarines get an altitude target. *)
Theorem control_health_gates (b : Bot) (d : EntityData) (damage : R) (mv : Vec2)
    (best : option FiringSolution) :
  0 < max_health_secs d ->
  exists c, control_command b d (1 - damage / max_health_secs d) mv best = Control c /\
    (active c = true <-> damage <= max_health_secs d / 2) /\
    (altitude_target c = None <-> sub_kind d <> Submarine) /\
    (altitude_target c = Some Altitude_MIN <->
       sub_kind d = Submarine /\ max_health_secs d * (1 - aggression b) <= damage).
Proof.
  intros HM. eexists. split; [reflexivity|]. simpl.
  set (M := max_health_secs d) in *.
  assert (Hq : damage = damage / M * M) by (field; lra).
  set (q := damage / M) in *.
  split.
  - destruct (Rle_dec 0.5 (1 - q)); split; intros H; try discriminate; [nra|reflexivity|nra].
  - destruct (EntitySubKind_beq (sub_kind d) Submarine) eqn:Hs.
    + apply internal_EntitySubKind_dec_bl in Hs. rewrite Hs.
      split; [split; [discriminate|intros H; contradiction H; reflexivity]|].
      destruct (Rlt_dec (aggression b) (1 - q)); split.
      * unfold Altitude_ZERO, Altitude_MIN. intros E. injection E. lia.
      * intros [_ H]. nra.
      * intros _. split; [reflexivity|nra].
      * intros _. reflexivity.
    + assert (Hn : sub_kind d <> Submarine)
        by (intros E; rewrite E in Hs; discriminate).
      split; [split; [intros _; exact Hn|intros _; reflexivity]|].
      split; [discriminate|intros [E _]; contradiction].
Qed.

(** A [Fire] needs the aggression draw, an enemy among the contacts (at
    whose position it aims) and a qualifying armament of the vessel: a
    Weapon or Aircraft relevant to the enemy, whose deviation is under 60
    degrees. *)
Theorem fire_requires_aligned_relevant_armament (b : Bot) (u : Complete) (r : Draws) res
    (k : Z) (p : Vec2) :
  update b u r = Some res -> In (Fire k p) (fst (fst res)) ->
  aggression_roll r = true /\
  exists boat rest t e et i a diff,
    contacts u = boat :: rest /\ c_entity_type boat = Some t /\
    In e rest /\ is_enemy (player_id u) boat e = true /\ c_entity_type e = Some et /\
    p = position (c_transform e) /\
    nth_error (armaments (data t)) i = Some a /\ k = u8_of_nat i /\
    candidate boat (data t) e (data et) i a = Some (Some diff) /\
    (diff < angle_60_degrees)%Z /\
    is_weapon_or_aircraft (kind (data (arm_entity_type a))) = true /\
    relevant (kind (data et)) (c_altitude e) (sub_kind (data (arm_entity_type a))) = true.
Proof.
  intros H Hin.
  destruct (update_cases b u r) as [(boat & rest & Hu & _ & _ & E)|(_ & E)]; rewrite E in H.
  - apply alive_update_result in H as (_ & _ & t & mv & closest & best & Ht & Hs & Hb & Hc).
    rewrite Hc in Hin. destruct Hin as [Hin|Hin]; [discriminate|].
    unfold second_commands in Hin.
    destruct (aggression_roll r) eqn:Hr; [|contradiction].
    destruct best as [s|];
      [|destruct (Nat.ltb _ _); [destruct (choose _ _)|]; simpl in Hin;
        intuition discriminate].
    destruct (Z.ltb_spec (fs_diff s) angle_60_degrees) as [Hlt|]; [|contradiction].
    destruct Hin as [Hin|Hin]; [|contradiction]. injection Hin as <- <-.
    destruct closest as [[e de]|]; [|discriminate].
    destruct (targeting_some_spec boat (data t) e s Hb)
      as (et & i & a & Het & Hn & Hca & Hi & Hp & _).
    destruct (scan_closest_spec (player_id u) boat (data t) rest (terrain_pass u boat (data t)) None)
      as [(Heq & _)|(e' & pre & post & He & Hrest & Hen & _)]; rewrite Hs in *; simpl in *;
      [discriminate|].
    injection He as <- _.
    pose proof (candidate_filters _ _ _ _ _ _ _ Hca) as (_ & Hw & Hrel & _).
    split; [reflexivity|].
    exists boat, rest, t, e, et, i, a, (fs_diff s). repeat split; auto.
    rewrite Hrest. apply in_or_app. right. left. reflexivity.
  - apply dead_update_result in H as (_ & [(_ & Hr)|(_ & e & _ & Hr)]); rewrite Hr in Hin;
      simpl in Hin; intuition discriminate.
Qed.

(** Every [Spawn] names one of [spawn_options(true)] and every [Upgrade] one
    of the vessel type's [upgrade_options(score, true)]. *)
Theorem spawn_and_upgrade_from_options (b : Bot) (u : Complete) (r : Draws) res :
  update b u r = Some res ->
  (forall e, In (Spawn e) (fst (fst res)) -> In e (spawn_options true)) /\
  (forall e, In (Upgrade e) (fst (fst res)) ->
     exists boat rest t, contacts u = boat :: rest /\ c_entity_type boat = Some t /\
       In e (upgrade_options t (score u) true)).
Proof.
  intros H.
  destruct (update_cases b u r) as [(boat & rest & Hu & _ & _ & E)|(_ & E)]; rewrite E in H.
  - apply alive_update_result in H as (_ & _ & t & mv & closest & best & Ht & _ & _ & Hc).
    rewrite Hc. unfold second_commands.
    destruct (aggression_roll r); [|simpl; split; intros e' Hin; intuition discriminate].
    destruct best as [s|].
    + destruct (Z.ltb _ _); simpl; split; intros e' Hin; intuition discriminate.
    + destruct (Nat.ltb _ _); [|simpl; split; intros e' Hin; intuition discriminate].
      destruct (choose (upgrade_pick r) (upgrade_options t (score u) true)) as [e|] eqn:Hch;
        simpl; split; intros e' Hin; try (intuition discriminate).
      destruct Hin as [Hin|[Hin|[]]]; [discriminate|]. injection Hin as <-.
      exists boat, rest, t. repeat split; auto. exact (choose_in _ _ _ Hch).
  - apply dead_update_result in H as (_ & [(_ & Hr)|(_ & e & Hch & Hr)]); rewrite Hr; simpl;
      split; intros e' Hin; try (intuition discriminate).
    destruct Hin as [Hin|[]]. injection Hin as <-. exact (choose_in _ _ _ Hch).
Qed.

(** A ready, relevant, in-azimuth armament that is vertical or launches an
    aircraft has deviation zero, so the search then always yields a firing
    solution, of deviation zero. *)
Theorem ready_vertical_armament_gives_aligned_solution (boat : Contact) (d : EntityData)
    (e : Contact) (et : EntityType) (res : option FiringSolution) (j : nat) (a : Armament) :
  c_entity_type e = Some et ->
  targeting boat d e = Some res ->
  nth_error (armaments d) j = Some a ->
  nth_error (c_reloads boat) j = Some 0%N ->
  is_weapon_or_aircraft (kind (data (arm_entity_type a))) = true ->
  relevant (kind (data et)) (c_altitude e) (sub_kind (data (arm_entity_type a))) = true ->
  turret_ok boat d a = Some true ->
  arm_vertical a || EntityKind_beq (kind (data (arm_entity_type a))) Aircraft = true ->
  exists s, res = Some s /\ fs_diff s = Angle_ZERO.
Proof.
  intros Het H Hn Hr Hw Hrel Ht Hv.
  assert (Hc : candidate boat d e (data et) j a = Some (Some Angle_ZERO)).
  { unfold candidate. rewrite Hr. simpl. rewrite Hw, Hrel, Ht. simpl. rewrite Hv. reflexivity. }
  unfold targeting in H. rewrite Het in H.
  apply targeting_loop_spec in H as (_ & H2 & H3).
  specialize (H2 j a Angle_ZERO Hn Hc).
  destruct res as [s|].
  - exists s. split; [reflexivity|].
    destruct H3 as [H3|(j' & a' & s' & E & _ & Hc' & _)]; [discriminate|].
    injection E as <-. apply candidate_range in Hc'. simpl in H2.
    unfold Angle_ZERO in *. lia.
  - simpl in H2. unfold Angle_ZERO, Angle_MAX in H2. lia.
Qed.

End Extras.

(** ** Concrete runs: counterexamples and witnesses *)

Module Checks.
Import Scenario.
#[local] Existing Instance scn_types.
#[local] Existing Instance scn_common.

Lemma Int_part_0 : Int_part 0 = 0%Z.
Proof.
  destruct (base_Int_part 0) as [H1 H2].
  assert (H3 : (-1 < Int_part 0)%Z) by (apply lt_IZR; lra).
  assert (H4 : (Int_part 0 <= 0)%Z) by (apply le_IZR; lra).
  lia.
Qed.

(** Due east is angle zero. *)
Lemma angle_east (p q : Vec2) :
  vx q < vx p -> vy p = vy q -> scn_angle_from_vec (vsub p q) = 0%Z.
Proof.
  intros Hx Hy. unfold vsub. set (x := vx p - vx q).
  assert (Hx' : 0 < x) by (unfold x; lra).
  replace (vy p - vy q) with 0 by lra. clearbody x. clear Hx Hy.
  unfold scn_angle_from_vec, scn_angle_from_radians, atan2, trunc_R; simpl.
  destruct (Rlt_dec 0 x); [|lra].
  replace (0 / x) with 0 by (field; lra). rewrite atan_0, Rmult_0_l.
  destruct (Rle_dec 0 0); [|lra]. rewrite Int_part_0. reflexivity.
Qed.

Ltac run_update :=
  unfold update; simpl; unfold alive_update, scan_contacts, targeting; simpl;
  unfold candidate; simpl;
  try (rewrite angle_east by (simpl; lra)); simpl.

(** Own destroyer heading east, hostile destroyer due east: the torpedo is
    fired at the hostile. *)
Lemma run_east : exists res,
  update bot0 (snapshot [own_boat TDestroyer 0%Z; east_destroyer]) draws_aggressive = Some res
  /\ In (Fire 0 (mkVec2 100 0)) (fst (fst res)).
Proof.
  eexists. split.
  - run_update. reflexivity.
  - simpl. unfold second_commands. simpl. right. left. reflexivity.
Qed.

(** Own destroyer heading north, hostile due east: a firing solution of
    deviation 16383 (90 degrees). *)
Lemma run_north : exists res,
  update bot0 (snapshot [own_boat TDestroyer 16383%Z; east_destroyer]) draws_aggressive
    = Some res /\
  fst (fst res) = [control_command bot0 (data TDestroyer)
                     (1 - 0 / max_health_secs (data TDestroyer))
                     (fst (scan_contacts 1 (own_boat TDestroyer 16383%Z) (data TDestroyer)
                            [east_destroyer]
                            (terrain_pass (snapshot [own_boat TDestroyer 16383%Z; east_destroyer])
                               (own_boat TDestroyer 16383%Z) (data TDestroyer), None)))
                     (Some (mkFiringSolution 0 (mkVec2 100 0) 16383%Z))].
Proof.
  eexists. split.
  - run_update. reflexivity.
  - reflexivity.
Qed.

(** Own destroyer alone: no firing solution, an upgrade is drawn. *)
Lemma run_alone : exists res,
  update bot0 (snapshot [own_boat TDestroyer 0%Z]) draws_aggressive = Some res /\
  In (Upgrade TCruiser) (fst (fst res)).
Proof.
  eexists. split.
  - run_update. reflexivity.
  - simpl. right. left. reflexivity.
Qed.

(** C1 counterexample: the bot is a destroyer; a hostile Boat of sub-kind
    Ram still adds a repulsion to the movement vector. *)
Lemma hostile_ram_boat_is_repelled :
  kind (data TRamBoat) = Boat /\ sub_kind (data TRamBoat) = Ram /\
  opt_nat_eqb (c_player_id ram_contact) (Some 1%nat) = false /\
  fst (contact_step 1 (own_boat TDestroyer 0%Z) (data TDestroyer) (Vec2_ZERO, None) ram_contact)
    <> Vec2_ZERO.
Proof.
  split; [reflexivity|]. split; [reflexivity|]. split; [reflexivity|].
  simpl. intros H. injection H as H1 _.
  unfold length_squared, vsub in H1; simpl in H1.
  assert (E : 1 + ((10 - 0) * (10 - 0) + (0 - 0) * (0 - 0)) = 101) by ring.
  rewrite E in H1. unfold Rdiv in H1. lra.
Qed.

(** C1 witness. *)
Lemma hostile_boat_repulsion_gated_by_own_sub_kind_witness :
  c_id ram_contact <> c_id (own_boat TDestroyer 0%Z) /\
  c_entity_type ram_contact = Some TRamBoat /\ kind (data TRamBoat) = Boat /\
  opt_nat_eqb (c_player_id ram_contact) (Some 1%nat) = false /\
  fst (contact_step 1 (own_boat TDestroyer 0%Z) (data TDestroyer) (Vec2_ZERO, None) ram_contact) =
    (if EntitySubKind_beq (sub_kind (data TDestroyer)) Ram then Vec2_ZERO
     else repel Vec2_ZERO
            (vsub (position (c_transform ram_contact)) (position (c_transform (own_boat TDestroyer 0%Z))))
            (length_squared (vsub (position (c_transform ram_contact))
                                  (position (c_transform (own_boat TDestroyer 0%Z)))))).
Proof.
  split; [simpl; discriminate|]. split; [reflexivity|]. split; [reflexivity|].
  split; [reflexivity|].
  apply (@hostile_boat_repulsion_gated_by_own_sub_kind scn_types scn_common 1 (own_boat TDestroyer 0%Z)
           (scn_data TDestroyer) Vec2_ZERO None ram_contact TRamBoat);
    [simpl; discriminate|reflexivity|reflexivity|reflexivity].
Defined.

(** C2 counterexample: the [Fire] aims at the hostile's exact position, not
    at that position offset by the bot's non-zero [aim_bias]. *)
Lemma fire_aim_point_has_no_aim_bias : exists res,
  update bot0 (snapshot [own_boat TDestroyer 0%Z; east_destroyer]) draws_aggressive = Some res /\
  In (Fire 0 (position (c_transform east_destroyer))) (fst (fst res)) /\
  ~ In (Fire 0 (vadd (position (c_transform east_destroyer)) (aim_bias bot0))) (fst (fst res)).
Proof.
  destruct run_east as (res & H1 & H2). exists res. split; [exact H1|]. split; [exact H2|].
  revert H1. run_update. intros E. injection E as <-. simpl.
  unfold second_commands. simpl. intros [H|[H|H]]; [discriminate| |contradiction].
  injection H as H. lra.
Qed.

(** C2 witness. *)
Lemma fire_targets_unbiased_hostile_position_witness : exists res,
  update bot0 (snapshot [own_boat TDestroyer 0%Z; east_destroyer]) draws_aggressive = Some res /\
  In (Fire 0 (mkVec2 100 0)) (fst (fst res)) /\
  exists boat rest t mv e de c,
    contacts (snapshot [own_boat TDestroyer 0%Z; east_destroyer]) = boat :: rest /\
    c_entity_type boat = Some t /\
    scan_contacts 1 boat (data t) rest
      (terrain_pass (snapshot [own_boat TDestroyer 0%Z; east_destroyer]) boat (data t), None)
      = (mv, Some (e, de)) /\
    mkVec2 100 0 = position (c_transform e) /\
    In (Control c) (fst (fst res)) /\ aim_target c = Some (vadd (mkVec2 100 0) (aim_bias bot0)).
Proof.
  destruct run_east as (res & H1 & H2). exists res. split; [exact H1|]. split; [exact H2|].
  exact (fire_targets_unbiased_hostile_position bot0 _ draws_aggressive res 0%Z _ H1 H2).
Defined.

(** C3 counterexample: a gunboat heading north with its deck gun at rest
    (turret angle 0, inside the arc [-4000, 4000]); the hostile lies due
    east, at relative bearing -16383, outside the arc; the gun is still
    selected as the firing solution. *)
Lemma turret_gun_selected_outside_arc :
  arm_turret deck_gun = Some 0%nat /\
  arc_within (mkArc (-4000)%Z 4000%Z)
    (angle_sub (scn_angle_from_vec (vsub (position (c_transform east_destroyer))
                                         (position (c_transform (own_boat TGunboat 16383%Z)))))
               (direction (c_transform (own_boat TGunboat 16383%Z)))) = false /\
  targeting (own_boat TGunboat 16383%Z) (data TGunboat) east_destroyer
    = Some (Some (mkFiringSolution 0 (mkVec2 100 0) 16383%Z)).
Proof.
  split; [reflexivity|]. split.
  - rewrite angle_east by (simpl; lra). reflexivity.
  - unfold targeting. simpl. unfold candidate. simpl.
    rewrite angle_east by (simpl; lra). reflexivity.
Qed.

(** C3 witness. *)
Lemma turret_gate_reads_turret_orientation_witness :
  targeting (own_boat TGunboat 16383%Z) (data TGunboat) east_destroyer
    = Some (Some (mkFiringSolution 0 (mkVec2 100 0) 16383%Z)) /\
  exists i a, nth_error (armaments (data TGunboat)) i = Some a /\
    fs_index (mkFiringSolution 0 (mkVec2 100 0) 16383%Z) = u8_of_nat i /\
    turret_ok (own_boat TGunboat 16383%Z) (data TGunboat) a = Some true /\
    forall turret_index, arm_turret a = Some turret_index ->
      exists t o, nth_error (turrets (data TGunboat)) turret_index = Some t /\
        nth_error (c_turrets (own_boat TGunboat 16383%Z)) turret_index = Some o /\
        within_azimuth t o = true.
Proof.
  assert (H : targeting (own_boat TGunboat 16383%Z) (data TGunboat) east_destroyer
              = Some (Some (mkFiringSolution 0 (mkVec2 100 0) 16383%Z))).
  { unfold targeting. simpl. unfold candidate. simpl.
    rewrite angle_east by (simpl; lra). reflexivity. }
  split; [exact H|].
  exact (turret_gate_reads_turret_orientation _ _ _ _ H).
Defined.

Lemma targeting_east_ahead :
  targeting (own_boat TDestroyer 0%Z) (data TDestroyer) east_destroyer
    = Some (Some (mkFiringSolution 0 (mkVec2 100 0) 0%Z)).
Proof.
  unfold targeting. simpl. unfold candidate. simpl.
  rewrite angle_east by (simpl; lra). reflexivity.
Qed.

Lemma targeting_east_north :
  targeting (own_boat TDestroyer 16383%Z) (data TDestroyer) east_destroyer
    = Some (Some (mkFiringSolution 0 (mkVec2 100 0) 16383%Z)).
Proof.
  unfold targeting. simpl. unfold candidate. simpl.
  rewrite angle_east by (simpl; lra). reflexivity.
Qed.

(** Heading [-32767] (just short of due west), hostile due east. *)
Lemma targeting_east_behind :
  candidate (own_boat TDestroyer (-32767)%Z) (data TDestroyer) east_destroyer
    (data TDestroyer) 0 torpedo_tube = Some (Some Angle_MAX) /\
  targeting (own_boat TDestroyer (-32767)%Z) (data TDestroyer) east_destroyer = Some None.
Proof.
  split.
  - unfold candidate. simpl. rewrite angle_east by (simpl; lra). reflexivity.
  - unfold targeting. simpl. unfold candidate. simpl.
    rewrite angle_east by (simpl; lra). reflexivity.
Qed.

(** C4 counterexample: the aggression draw succeeds, the level is below the
    ambition and an upgrade option exists, but the firing solution's
    deviation is 90 degrees: no second command at all, no [Upgrade]. *)
Lemma wide_firing_solution_blocks_upgrade : exists res,
  update bot0 (snapshot [own_boat TDestroyer 16383%Z; east_destroyer]) draws_aggressive
    = Some res /\
  aggression_roll draws_aggressive = true /\
  (level (data TDestroyer) < level_ambition bot0)%nat /\
  scn_upgrade_options TDestroyer 0 true = [TCruiser] /\
  targeting (own_boat TDestroyer 16383%Z) (data TDestroyer) east_destroyer
    = Some (Some (mkFiringSolution 0 (mkVec2 100 0) 16383%Z)) /\
  (angle_60_degrees <= 16383)%Z /\
  List.length (fst (fst res)) = 1%nat /\
  (forall e, ~ In (Upgrade e) (fst (fst res))).
Proof.
  destruct run_north as (res & H1 & H2). exists res.
  split; [exact H1|]. split; [reflexivity|]. split; [simpl; lia|].
  split; [reflexivity|]. split; [exact targeting_east_north|].
  split; [unfold angle_60_degrees; lia|].
  rewrite H2. split; [reflexivity|].
  intros e [H|H]; [discriminate|contradiction].
Qed.

(** C4 witness: the hostile-north run, where the firing solution deviates
    by 16383 (90 degrees): the commands are the [Control] alone; and the
    lone-vessel run, whose [Upgrade] comes with a successful draw. *)
Lemma upgrade_only_without_firing_solution_witness : (exists res,
  update bot0 (snapshot [own_boat TDestroyer 16383%Z; east_destroyer]) draws_aggressive
    = Some res /\
  fst (fst res) =
    [control_command bot0 (data TDestroyer)
       (1 - c_damage_secs (own_boat TDestroyer 16383%Z) / max_health_secs (data TDestroyer))
       (fst (scan_contacts 1 (own_boat TDestroyer 16383%Z) (data TDestroyer) [east_destroyer]
               (terrain_pass (snapshot [own_boat TDestroyer 16383%Z; east_destroyer])
                  (own_boat TDestroyer 16383%Z) (data TDestroyer), None)))
       (Some (mkFiringSolution 0 (mkVec2 100 0) 16383%Z))]) /\
  (exists res, update bot0 (snapshot [own_boat TDestroyer 0%Z]) draws_aggressive = Some res /\
   In (Upgrade TCruiser) (fst (fst res)) /\ aggression_roll draws_aggressive = true).
Proof.
  split.
  - destruct run_north as (res & H1 & _). exists res. split; [exact H1|].
    apply (proj2 (@upgrade_only_without_firing_solution scn_types scn_common
                    bot0 _ draws_aggressive res H1)
             (own_boat TDestroyer 16383%Z) [east_destroyer] TDestroyer _ east_destroyer
             (distance_squared_to (own_boat TDestroyer 16383%Z) east_destroyer)
             (mkFiringSolution 0 (mkVec2 100 0) 16383%Z));
      [reflexivity|reflexivity|reflexivity|reflexivity|exact targeting_east_north|
       unfold angle_60_degrees; simpl; lia].
  - destruct run_alone as (res & H1 & H2). exists res. split; [exact H1|]. split; [exact H2|].
    exact (proj1 (proj1 (proj1 (@upgrade_only_without_firing_solution scn_types scn_common
                                  bot0 _ draws_aggressive res H1) TCruiser) H2)).
Defined.

(** C5 counterexample: the torpedo qualifies, with deviation
    [Angle::MAX], and nothing is selected. *)
Lemma sole_max_candidate_not_selected :
  nth_error (armaments (data TDestroyer)) 0 = Some torpedo_tube /\
  candidate (own_boat TDestroyer (-32767)%Z) (data TDestroyer) east_destroyer
    (data TDestroyer) 0 torpedo_tube = Some (Some Angle_MAX) /\
  targeting (own_boat TDestroyer (-32767)%Z) (data TDestroyer) east_destroyer = Some None.
Proof.
  split; [reflexivity|]. exact targeting_east_behind.
Qed.

(** C10 witness. *)
Lemma targeting_never_selects_max_deviation_witness :
  c_entity_type east_destroyer = Some TDestroyer /\
  targeting (own_boat TDestroyer (-32767)%Z) (data TDestroyer) east_destroyer = Some None /\
  (forall s, (None : option FiringSolution) = Some s ->
     (fs_diff s < Angle_MAX)%Z /\
     exists isel a, nth_error (armaments (data TDestroyer)) isel = Some a /\
       fs_index s = u8_of_nat isel /\
       candidate (own_boat TDestroyer (-32767)%Z) (data TDestroyer) east_destroyer
         (data TDestroyer) isel a = Some (Some (fs_diff s)) /\
       forall i a', nth_error (armaments (data TDestroyer)) i = Some a' ->
         candidate (own_boat TDestroyer (-32767)%Z) (data TDestroyer) east_destroyer
           (data TDestroyer) i a' = Some (Some Angle_MAX) -> i <> isel) /\
  ((forall j a' dj, nth_error (armaments (data TDestroyer)) j = Some a' ->
      candidate (own_boat TDestroyer (-32767)%Z) (data TDestroyer) east_destroyer
        (data TDestroyer) j a' = Some (Some dj) -> dj = Angle_MAX) ->
   (None : option FiringSolution) = None).
Proof.
  split; [reflexivity|]. split; [exact (proj2 targeting_east_behind)|].
  exact (targeting_never_selects_max_deviation _ _ east_destroyer TDestroyer None eq_refl
           (proj2 targeting_east_behind)).
Defined.

End Checks.

(** ** Concrete runs on the frigate: several armaments *)

Module FleetChecks.
Import Fleet.
#[local] Existing Instance f_types.
#[local] Existing Instance f_common.

(** All launchers ready: the tube deviates by 16383, both vertical
    launchers by 0; the first of the two minima (index 1) is selected. *)
Lemma targeting_frigate_ready :
  candidate (own_frigate [0%N; 0%N; 0%N]) (f_data FFrigate) enemy_frigate (f_data FFrigate) 0 tube
    = Some (Some 16383%Z) /\
  candidate (own_frigate [0%N; 0%N; 0%N]) (f_data FFrigate) enemy_frigate (f_data FFrigate) 2 vls
    = Some (Some 0%Z) /\
  targeting (own_frigate [0%N; 0%N; 0%N]) (f_data FFrigate) enemy_frigate
    = Some (Some (mkFiringSolution 1 (mkVec2 100 0) 0%Z)).
Proof.
  split; [|split].
  - unfold candidate. simpl. rewrite Checks.angle_east by (simpl; lra). reflexivity.
  - reflexivity.
  - unfold targeting. simpl. unfold candidate. simpl.
    rewrite Checks.angle_east by (simpl; lra). reflexivity.
Qed.

(** The first vertical launcher reloading (timer 7): it is skipped and the
    second one (index 2) is selected. *)
Lemma targeting_frigate_reloading :
  targeting (own_frigate [0%N; 7%N; 0%N]) (f_data FFrigate) enemy_frigate
    = Some (Some (mkFiringSolution 2 (mkVec2 100 0) 0%Z)).
Proof.
  unfold targeting. simpl. unfold candidate. simpl.
  rewrite Checks.angle_east by (simpl; lra). reflexivity.
Qed.

Lemma run_frigate_reloading : exists res,
  update Scenario.bot0 (fleet_snapshot [0%N; 7%N; 0%N]) Scenario.draws_aggressive = Some res /\
  In (Fire 2 (mkVec2 100 0)) (fst (fst res)).
Proof.
  eexists. split.
  - Checks.run_update. reflexivity.
  - simpl. unfold second_commands. simpl. right. left. reflexivity.
Qed.

(** C5 witness: three armaments with deviations 16383, 0 and 0; the
    selection is index 1, strictly better than index 0 and tied with the
    later index 2. *)
Lemma targeting_selects_first_minimum_witness :
  candidate (own_frigate [0%N; 0%N; 0%N]) (data FFrigate) enemy_frigate (data FFrigate) 0 tube
    = Some (Some 16383%Z) /\
  candidate (own_frigate [0%N; 0%N; 0%N]) (data FFrigate) enemy_frigate (data FFrigate) 2 vls
    = Some (Some 0%Z) /\
  c_entity_type enemy_frigate = Some FFrigate /\
  targeting (own_frigate [0%N; 0%N; 0%N]) (data FFrigate) enemy_frigate
    = Some (Some (mkFiringSolution 1 (mkVec2 100 0) 0%Z)) /\
  exists i a, nth_error (armaments (data FFrigate)) i = Some a /\
    candidate (own_frigate [0%N; 0%N; 0%N]) (data FFrigate) enemy_frigate (data FFrigate) i a
      = Some (Some 0%Z) /\
    1%Z = u8_of_nat i /\ (0 < Angle_MAX)%Z /\
    (forall j a' dj, nth_error (armaments (data FFrigate)) j = Some a' ->
       candidate (own_frigate [0%N; 0%N; 0%N]) (data FFrigate) enemy_frigate (data FFrigate) j a'
         = Some (Some dj) -> (0 <= dj)%Z) /\
    (forall j a' dj, (j < i)%nat -> nth_error (armaments (data FFrigate)) j = Some a' ->
       candidate (own_frigate [0%N; 0%N; 0%N]) (data FFrigate) enemy_frigate (data FFrigate) j a'
         = Some (Some dj) -> (0 < dj)%Z).
Proof.
  destruct targeting_frigate_ready as (H0 & H2 & H).
  split; [exact H0|]. split; [exact H2|]. split; [reflexivity|]. split; [exact H|].
  exact (@targeting_selects_first_minimum f_types f_common
           (own_frigate [0%N; 0%N; 0%N]) (f_data FFrigate) enemy_frigate FFrigate _ eq_refl H).
Defined.

(** C7 witness: the launcher at index 1 has timer 7; the selection and the
    [Fire] use index 2, whose timer is zero. *)
Lemma reloading_armament_never_selected_witness :
  nth_error (c_reloads (own_frigate [0%N; 7%N; 0%N])) 1 = Some 7%N /\
  (exists isel a, nth_error (armaments (data FFrigate)) isel = Some a /\
     2%Z = u8_of_nat isel /\
     nth_error (c_reloads (own_frigate [0%N; 7%N; 0%N])) isel = Some 0%N /\
     forall j rl, nth_error (c_reloads (own_frigate [0%N; 7%N; 0%N])) j = Some rl ->
       rl <> 0%N -> j <> isel) /\
  (exists res,
     update Scenario.bot0 (fleet_snapshot [0%N; 7%N; 0%N]) Scenario.draws_aggressive = Some res /\
     In (Fire 2 (mkVec2 100 0)) (fst (fst res)) /\
     exists boat rest t isel,
       contacts (fleet_snapshot [0%N; 7%N; 0%N]) = boat :: rest /\ c_entity_type boat = Some t /\
       (isel < List.length (armaments (data t)))%nat /\ 2%Z = u8_of_nat isel /\
       nth_error (c_reloads boat) isel = Some 0%N /\
       forall j rl, nth_error (c_reloads boat) j = Some rl -> rl <> 0%N -> j <> isel).
Proof.
  split; [reflexivity|]. split.
  - exact (proj1 (@reloading_armament_never_selected f_types f_common)
             (own_frigate [0%N; 7%N; 0%N]) (f_data FFrigate) enemy_frigate _
             targeting_frigate_reloading).
  - destruct run_frigate_reloading as (res & H & Hin). exists res.
    split; [exact H|]. split; [exact Hin|].
    exact (proj2 (@reloading_armament_never_selected f_types f_common)
             Scenario.bot0 _ Scenario.draws_aggressive res 2%Z _ H Hin).
Defined.

End FleetChecks.

(** ** Concrete runs: witnesses of the further properties *)

Module ExtraChecks.
Import Scenario.
#[local] Existing Instance scn_types.
#[local] Existing Instance scn_common.

Definition bot_fresh : Bot := new (1/2) (mkVec2 3 4) 3.
Definition bot_veteran : Bot := mkBot 0.05 (mkVec2 3 4) 3 true.
Definition draws_quit : Draws := mkDraws false true 0 0.

(** A friendly cruiser (player 1) 18 units north, and a friendly torpedo. *)
Definition friend_cruiser : Contact :=
  mkContact 7 (Some 1%nat) (Some TCruiser) (mkTransform (mkVec2 0 18) 0%Z) 0%Z 0 [] [].
Definition friend_torpedo : Contact :=
  mkContact 8 (Some 1%nat) (Some TTorpedo) (mkTransform (mkVec2 0 5) 0%Z) 0%Z 0 [] [].

Lemma new_aggression_below_max_witness :
  0 <= aggression bot_fresh < MAX_AGGRESSION /\ spawned_at_least_once bot_fresh = false.
Proof. apply new_aggression_below_max. lra. Defined.

Lemma new_bot_first_update_never_quits_witness :
  update bot_fresh (snapshot []) draws_quit = Some (([Spawn TDestroyer], false), bot_fresh) /\
  snd (fst (([Spawn TDestroyer], false), bot_fresh)) = false.
Proof.
  split; [reflexivity|].
  apply (@new_bot_first_update_never_quits scn_types scn_common (1/2) (mkVec2 3 4) 3 (snapshot []) draws_quit).
  reflexivity.
Defined.

Lemma update_quits_only_after_spawning_witness :
  update bot_veteran (snapshot []) draws_quit = Some (([], true), bot_veteran) /\
  (first_contact_is_own_boat (snapshot []) = false /\ spawned_at_least_once bot_veteran = true /\
   quit_roll draws_quit = true /\ fst (fst ((([] : list Command), true), bot_veteran)) = [] /\
   snd ((([] : list Command), true), bot_veteran) = bot_veteran).
Proof.
  split; [reflexivity|].
  apply (@update_quits_only_after_spawning scn_types scn_common bot_veteran (snapshot []) draws_quit); reflexivity.
Defined.

Lemma update_changes_only_spawned_flag_witness : exists res,
  update bot0 (snapshot [own_boat TDestroyer 0%Z; east_destroyer]) draws_aggressive = Some res /\
  aggression (snd res) = aggression bot0 /\ aim_bias (snd res) = aim_bias bot0 /\
  level_ambition (snd res) = level_ambition bot0 /\
  spawned_at_least_once (snd res) =
    spawned_at_least_once bot0
    || first_contact_is_own_boat (snapshot [own_boat TDestroyer 0%Z; east_destroyer]).
Proof.
  destruct Checks.run_east as (res & H & _). exists res. split; [exact H|].
  exact (update_changes_only_spawned_flag _ _ _ res H).
Defined.

Lemma update_at_most_two_commands_witness : exists res,
  update bot0 (snapshot [own_boat TDestroyer 0%Z; east_destroyer]) draws_aggressive = Some res /\
  (List.length (fst (fst res)) <= 2)%nat /\
  (forall i c, nth_error (fst (fst res)) i = Some (Control c) -> i = 0%nat).
Proof.
  destruct Checks.run_east as (res & H & _). exists res. split; [exact H|].
  exact (update_at_most_two_commands _ _ _ res H).
Defined.

Lemma update_panics_without_vessel_iff_no_spawn_option_witness :
  first_contact_is_own_boat (snapshot []) = false /\
  (update bot0 (snapshot []) draws_aggressive = None <->
   spawned_at_least_once bot0 && quit_roll draws_aggressive = false /\
   spawn_options true = []).
Proof.
  split; [reflexivity|].
  apply (@update_panics_without_vessel_iff_no_spawn_option scn_types scn_common bot0 (snapshot []) draws_aggressive).
  reflexivity.
Defined.

Lemma update_total_with_consistent_vessel_witness :
  update bot0 (snapshot [own_boat TDestroyer 0%Z; east_destroyer]) draws_aggressive <> None.
Proof.
  apply (@update_total_with_consistent_vessel scn_types scn_common bot0
           (snapshot [own_boat TDestroyer 0%Z; east_destroyer]) draws_aggressive
           (own_boat TDestroyer 0%Z) [east_destroyer] TDestroyer);
    [reflexivity|reflexivity|reflexivity|simpl; lia|].
  intros a ti [<-|[]] E. discriminate.
Defined.

(** X8 witness: hostiles at squared distances 2500, 900, 900 and 1600, with
    a friendly torpedo in between; the first of the two nearest is kept. *)
Lemma closest_enemy_is_first_nearest_witness :
  scan_contacts 1 (own_boat TDestroyer 0%Z) (data TDestroyer)
    [hostile 11 TDestroyer (mkVec2 50 0); friend_torpedo; hostile 12 TDestroyer (mkVec2 30 0);
     hostile 13 TDestroyer (mkVec2 0 30); hostile 14 TDestroyer (mkVec2 40 0)]
    (Vec2_ZERO, None)
  = (fst (scan_contacts 1 (own_boat TDestroyer 0%Z) (data TDestroyer)
            [hostile 11 TDestroyer (mkVec2 50 0); friend_torpedo; hostile 12 TDestroyer (mkVec2 30 0);
             hostile 13 TDestroyer (mkVec2 0 30); hostile 14 TDestroyer (mkVec2 40 0)]
            (Vec2_ZERO, None)),
     Some (hostile 12 TDestroyer (mkVec2 30 0),
           distance_squared_to (own_boat TDestroyer 0%Z) (hostile 12 TDestroyer (mkVec2 30 0)))) /\
  exists pre post,
    [hostile 11 TDestroyer (mkVec2 50 0); friend_torpedo; hostile 12 TDestroyer (mkVec2 30 0);
     hostile 13 TDestroyer (mkVec2 0 30); hostile 14 TDestroyer (mkVec2 40 0)]
      = pre ++ hostile 12 TDestroyer (mkVec2 30 0) :: post /\
    is_enemy 1 (own_boat TDestroyer 0%Z) (hostile 12 TDestroyer (mkVec2 30 0)) = true /\
    distance_squared_to (own_boat TDestroyer 0%Z) (hostile 12 TDestroyer (mkVec2 30 0))
      = distance_squared_to (own_boat TDestroyer 0%Z) (hostile 12 TDestroyer (mkVec2 30 0)) /\
    (forall c, In c pre -> is_enemy 1 (own_boat TDestroyer 0%Z) c = true ->
       distance_squared_to (own_boat TDestroyer 0%Z) (hostile 12 TDestroyer (mkVec2 30 0))
         < distance_squared_to (own_boat TDestroyer 0%Z) c) /\
    (forall c, In c post -> is_enemy 1 (own_boat TDestroyer 0%Z) c = true ->
       distance_squared_to (own_boat TDestroyer 0%Z) (hostile 12 TDestroyer (mkVec2 30 0))
         <= distance_squared_to (own_boat TDestroyer 0%Z) c).
Proof.
  assert (H : scan_contacts 1 (own_boat TDestroyer 0%Z) (data TDestroyer)
    [hostile 11 TDestroyer (mkVec2 50 0); friend_torpedo; hostile 12 TDestroyer (mkVec2 30 0);
     hostile 13 TDestroyer (mkVec2 0 30); hostile 14 TDestroyer (mkVec2 40 0)]
    (Vec2_ZERO, None)
  = (fst (scan_contacts 1 (own_boat TDestroyer 0%Z) (data TDestroyer)
            [hostile 11 TDestroyer (mkVec2 50 0); friend_torpedo; hostile 12 TDestroyer (mkVec2 30 0);
             hostile 13 TDestroyer (mkVec2 0 30); hostile 14 TDestroyer (mkVec2 40 0)]
            (Vec2_ZERO, None)),
     Some (hostile 12 TDestroyer (mkVec2 30 0),
           distance_squared_to (own_boat TDestroyer 0%Z) (hostile 12 TDestroyer (mkVec2 30 0))))).
  { unfold scan_contacts. simpl.
    repeat match goal with
           | |- context [Rlt_dec ?a ?b] => destruct (Rlt_dec a b); simpl
           end;
      try reflexivity; exfalso; unfold length_squared, vsub in *; simpl in *; lra. }
  split; [exact H|]. exact (closest_enemy_is_first_nearest _ _ _ _ _ _ _ _ H).
Defined.

Lemma no_enemy_no_fire_witness : exists res,
  update bot0 (snapshot [own_boat TDestroyer 0%Z; friend_torpedo]) draws_aggressive = Some res /\
  (forall k p, ~ In (Fire k p) (fst (fst res))) /\
  (forall c, In (Control c) (fst (fst res)) -> aim_target c = None).
Proof.
  eexists. split.
  - unfold update. simpl. unfold alive_update. simpl. reflexivity.
  - apply (@no_enemy_no_fire scn_types scn_common bot0 (snapshot [own_boat TDestroyer 0%Z; friend_torpedo])
             draws_aggressive _ (own_boat TDestroyer 0%Z) [friend_torpedo]);
      [reflexivity| |unfold update; simpl; unfold alive_update; simpl; reflexivity].
    intros c [<-|[]]. reflexivity.
Defined.

Lemma friendly_boat_overwrites_movement_witness :
  contact_step 1 (own_boat TDestroyer 0%Z) (data TDestroyer) (mkVec2 1 1, None) friend_cruiser =
    (spring Vec2_ZERO (vsub (mkVec2 0 18) (mkVec2 0 0))
       (radius (data TDestroyer) + radius (data TCruiser)), None) /\
  (vlength (vsub (mkVec2 0 18) (mkVec2 0 0)) = radius (data TDestroyer) + radius (data TCruiser) ->
   fst (contact_step 1 (own_boat TDestroyer 0%Z) (data TDestroyer) (mkVec2 1 1, None)
          friend_cruiser) = Vec2_ZERO).
Proof.
  apply (@friendly_boat_overwrites_movement scn_types scn_common 1 (own_boat TDestroyer 0%Z) (scn_data TDestroyer)
           (mkVec2 1 1) None friend_cruiser TCruiser);
    [simpl; lia|reflexivity|reflexivity|reflexivity].
Defined.

Lemma friendly_non_boat_ignored_witness :
  contact_step 1 (own_boat TDestroyer 0%Z) (data TDestroyer) (mkVec2 1 1, None) friend_torpedo
    = (mkVec2 1 1, None).
Proof.
  apply (@friendly_non_boat_ignored scn_types scn_common 1 (own_boat TDestroyer 0%Z) (scn_data TDestroyer)
           (mkVec2 1 1) None friend_torpedo TTorpedo);
    [reflexivity|discriminate|discriminate|reflexivity].
Defined.

Lemma control_health_gates_witness : exists c,
  control_command bot0 (data TDestroyer) (1 - 1 / max_health_secs (data TDestroyer))
    Vec2_ZERO None = Control c /\
  (active c = true <-> 1 <= max_health_secs (data TDestroyer) / 2) /\
  (altitude_target c = None <-> sub_kind (data TDestroyer) <> Submarine) /\
  (altitude_target c = Some Altitude_MIN <->
     sub_kind (data TDestroyer) = Submarine /\
     max_health_secs (data TDestroyer) * (1 - aggression bot0) <= 1).
Proof.
  apply (@control_health_gates scn_types scn_common bot0 (scn_data TDestroyer) 1 Vec2_ZERO None). simpl. lra.
Defined.

Lemma fire_requires_aligned_relevant_armament_witness : exists res,
  update bot0 (snapshot [own_boat TDestroyer 0%Z; east_destroyer]) draws_aggressive = Some res /\
  aggression_roll draws_aggressive = true /\
  exists boat rest t e et i a diff,
    contacts (snapshot [own_boat TDestroyer 0%Z; east_destroyer]) = boat :: rest /\
    c_entity_type boat = Some t /\
    In e rest /\ is_enemy 1 boat e = true /\ c_entity_type e = Some et /\
    mkVec2 100 0 = position (c_transform e) /\
    nth_error (armaments (data t)) i = Some a /\ 0%Z = u8_of_nat i /\
    candidate boat (data t) e (data et) i a = Some (Some diff) /\
    (diff < angle_60_degrees)%Z /\
    is_weapon_or_aircraft (kind (data (arm_entity_type a))) = true /\
    relevant (kind (data et)) (c_altitude e) (sub_kind (data (arm_entity_type a))) = true.
Proof.
  destruct Checks.run_east as (res & H & Hin). exists res. split; [exact H|].
  exact (fire_requires_aligned_relevant_armament _ _ _ res _ _ H Hin).
Defined.

Lemma spawn_and_upgrade_from_options_witness : exists res,
  update bot0 (snapshot [own_boat TDestroyer 0%Z]) draws_aggressive = Some res /\
  (forall e, In (Spawn e) (fst (fst res)) -> In e (spawn_options true)) /\
  (forall e, In (Upgrade e) (fst (fst res)) ->
     exists boat rest t, contacts (snapshot [own_boat TDestroyer 0%Z]) = boat :: rest /\
       c_entity_type boat = Some t /\ In e (upgrade_options t 0 true)).
Proof.
  destruct Checks.run_alone as (res & H & _). exists res. split; [exact H|].
  exact (spawn_and_upgrade_from_options _ _ _ res H).
Defined.

End ExtraChecks.

Module HarbourChecks.
Import Harbour.
#[local] Existing Instance h_types.
#[local] Existing Instance h_common.

Lemma hostile_obstacle_repelled_twice_witness :
  contact_step 1 own_sub (data HSub) (Vec2_ZERO, None) rock =
    (vadd Vec2_ZERO (vscale (vneg (vsub (mkVec2 0 30) (mkVec2 0 0)))
                       (2 / (1 + distance_squared_to own_sub rock))), None).
Proof.
  apply (@hostile_obstacle_repelled_twice h_types h_common 1 own_sub (h_data HSub) Vec2_ZERO None rock HRock);
    [simpl; lia|reflexivity|reflexivity|reflexivity].
Defined.

Lemma collectible_attracts_never_enemy_witness :
  contact_step 1 own_sub (data HSub) (Vec2_ZERO, None) crate =
    (attract Vec2_ZERO (vsub (mkVec2 5 5) (mkVec2 0 0)) (distance_squared_to own_sub crate), None).
Proof.
  apply (@collectible_attracts_never_enemy h_types h_common 1 own_sub (h_data HSub) Vec2_ZERO None crate HCrate);
    [simpl; lia|reflexivity|reflexivity].
Defined.

Lemma ready_vertical_armament_gives_aligned_solution_witness :
  targeting own_sub (data HSub) enemy_sub
    = Some (Some (mkFiringSolution 0 (mkVec2 100 0) Angle_ZERO)) /\
  exists s, Some (mkFiringSolution 0 (mkVec2 100 0) Angle_ZERO) = Some s /\
            fs_diff s = Angle_ZERO.
Proof.
  assert (H : targeting own_sub (data HSub) enemy_sub
                = Some (Some (mkFiringSolution 0 (mkVec2 100 0) Angle_ZERO))) by reflexivity.
  split; [exact H|].
  apply (@ready_vertical_armament_gives_aligned_solution h_types h_common own_sub (h_data HSub) enemy_sub HSub
           _ 0 vertical_tube); try reflexivity; exact H.
Defined.

End HarbourChecks.
